(** * A function-calling agent worker and its tool invoker

    Shallow embedding of
    - [llama_index/core/tools/calling.py]  (module [Calling]) and
    - [llama_index/core/agent/function_calling/step.py]  (module [Step]),
    followed by the properties of the two that the specification states.

    Python exceptions are values of [Exn]; a computation that may raise
    returns a [Result].  Objects that the code mutates in place and
    shares between holders (the [sources] list, the [new_memory] buffer)
    live in a heap and are named by their address. *)

From Stdlib Require Import ZArith.
From stdpp Require Import base option list gmap strings pretty.

(** ** Python values, exceptions and results *)

Module Py.

(** The classes of the exceptions that occur.  [KeyboardInterrupt],
    [SystemExit] and [CancelledError] derive from [BaseException] only;
    the others derive from [Exception]. *)
Inductive ExnClass :=
| KeyError | ValueError | TypeError | AttributeError | StopIteration
| NotImplementedError | RuntimeError
| KeyboardInterrupt | SystemExit | CancelledError.

(** [isinstance(e, Exception)] *)
Definition is_Exception (c : ExnClass) : bool :=
  match c with
  | KeyboardInterrupt | SystemExit | CancelledError => false
  | _ => true
  end.

(** An exception object: its class and what [str(e)] yields. *)
Record Exn := mkExn { exn_class : ExnClass; exn_str : string }.

Inductive Result (A : Type) :=
| Ok (a : A)
| Raise (e : Exn).
Arguments Ok {A} a.
Arguments Raise {A} e.

#[global] Instance Result_ret : MRet Result := @Ok.
#[global] Instance Result_bind : MBind Result := λ A B f m,
  match m with
  | Ok a => f a
  | Raise e => Raise e
  end.

(** [try: body  except Exception as e: handler(e)] *)
Definition try_except_Exception {A} (body : Result A) (handler : Exn → Result A)
  : Result A :=
  match body with
  | Ok a => Ok a
  | Raise e => if is_Exception (exn_class e) then handler e else Raise e
  end.

(** Argument values (what a JSON argument mapping holds). *)
Inductive Value :=
| VNone
| VBool (b : bool)
| VInt (z : Z)
| VStr (s : string).

(** A [dict] with string keys, in insertion order. *)
Abbreviation dict := (list (string * Value)).

(** [repr] of a string key, as [str(KeyError(k))] shows it. *)
Definition repr (s : string) : string := "'" +:+ s +:+ "'".

End Py.
Export Py.

(** ** llama_index/core/tools/calling.py *)

Module Calling.

Record ToolOutput := mkToolOutput {
  content : string;
  tool_name : string;
  raw_input : dict;
  raw_output : Value
}.

(** Modelled from the spec: [ToolOutput.__str__] is not under src/; the
    tool message's content is the "stringified output", the display
    content of the output. *)
Definition str_ToolOutput (o : ToolOutput) : string := content o.

(** Modelled from the spec: [ToolMetadata] is not under src/; a tool
    "exposes a name and a declared parameter schema".  [properties]
    lists the keys of [get_parameters_dict()["properties"]]. *)
Record ToolMetadata := mkToolMetadata {
  name : string;
  properties : list string
}.

(** What a tool does when called with positional arguments and named
    arguments. *)
Abbreviation ToolFn := (list Value → dict → Result ToolOutput).

(** Modelled from the spec: [BaseTool] and [AsyncBaseTool] are not under
    src/.  A native synchronous tool has [__call__] only; an
    asynchronous-capable tool has [call] (which [__call__] runs) and
    [acall]. *)
Inductive BaseTool :=
| SyncTool (md : ToolMetadata) (call : ToolFn)
| AsyncTool (md : ToolMetadata) (call acall : ToolFn).

Definition metadata (t : BaseTool) : ToolMetadata :=
  match t with
  | SyncTool md _ => md
  | AsyncTool md _ _ => md
  end.

(** [tool.__call__] *)
Definition tool_call (t : BaseTool) : ToolFn :=
  match t with
  | SyncTool _ c => c
  | AsyncTool _ c _ => c
  end.

(** [await tool.acall] *)
Definition tool_acall (t : BaseTool) : ToolFn :=
  match t with
  | SyncTool _ _ => λ _ _, Raise (mkExn AttributeError "acall")
  | AsyncTool _ _ a => a
  end.

(** Modelled from the spec: [adapt_to_async_tool] is not under src/; it
    gives every tool "a uniform asynchronous-capable invocation
    contract": an asynchronous tool is returned as it is, a synchronous
    one is wrapped so that [acall] runs its call. *)
Definition adapt_to_async_tool (t : BaseTool) : BaseTool :=
  match t with
  | SyncTool md c => AsyncTool md c c
  | AsyncTool _ _ _ => t
  end.

Record ToolSelection := mkToolSelection {
  tool_id : string;
  sel_tool_name : string;
  tool_kwargs : dict
}.

(** The [except Exception as e] clause of [call_tool] and [acall_tool]. *)
Definition error_output (tool : BaseTool) (arguments : dict) (e : Exn)
  : Result ToolOutput :=
  Ok {| content := "Encountered error: " +:+ exn_str e;
        tool_name := name (metadata tool);
        raw_input := arguments;
        raw_output := VStr (exn_str e) |}.

Definition call_tool (tool : BaseTool) (arguments : dict) : Result ToolOutput :=
  try_except_Exception
    (if (length (properties (metadata tool)) =? 1) && (length arguments =? 1)
     then
       match arguments with
       | (_, single_arg) :: _ => tool_call tool [single_arg] []
       | [] => Raise (mkExn StopIteration "")
       end
     else tool_call tool [] arguments)
    (error_output tool arguments).

Definition acall_tool (tool : BaseTool) (arguments : dict) : Result ToolOutput :=
  let async_tool := adapt_to_async_tool tool in
  try_except_Exception
    (if (length (properties (metadata tool)) =? 1) && (length arguments =? 1)
     then
       match arguments with
       | (_, single_arg) :: _ => tool_acall async_tool [single_arg] []
       | [] => Raise (mkExn StopIteration "")
       end
     else tool_acall async_tool [] arguments)
    (error_output tool arguments).

(** [{tool.metadata.name: tool for tool in tools}]: a later tool replaces
    an earlier one of the same name. *)
Definition tools_by_name (tools : list BaseTool) : gmap string BaseTool :=
  foldl (λ m tool, <[name (metadata tool) := tool]> m) ∅ tools.

(** [d[key]] *)
Definition getitem {V} (d : gmap string V) (key : string) : Result V :=
  match d !! key with
  | Some v => Ok v
  | None => Raise (mkExn KeyError (repr key))
  end.

(** The [verbose] printing is not modelled: it writes to the standard
    output and has no other effect. *)
Definition call_tool_with_selection (tool_call : ToolSelection)
    (tools : list BaseTool) : Result ToolOutput :=
  let name := sel_tool_name tool_call in
  tool ← getitem (tools_by_name tools) name;
  call_tool tool (tool_kwargs tool_call).

Definition acall_tool_with_selection (tool_call : ToolSelection)
    (tools : list BaseTool) : Result ToolOutput :=
  let name := sel_tool_name tool_call in
  tool ← getitem (tools_by_name tools) name;
  acall_tool tool (tool_kwargs tool_call).

End Calling.
Export Calling.

(** ** llama_index/core/agent/function_calling/step.py *)

Module Step.

Inductive MessageRole := SYSTEM | USER | ASSISTANT | TOOL.

Record ChatMessage := mkChatMessage {
  role : MessageRole;
  msg_content : option string;
  additional_kwargs : dict
}.

(** The response of the backend: its message, what [str(response)]
    yields, and the tool calls the raw response carries. *)
Record ChatResponse := mkChatResponse {
  message : ChatMessage;
  response_str : string;
  raw_tool_calls : list ToolSelection
}.

(** The backend.  Its blocking and suspending calls may raise. *)
Record LLM := mkLLM {
  model : string;
  is_function_calling_model : bool;
  chat_with_tool : list BaseTool → list ChatMessage → Result ChatResponse;
  achat_with_tool : list BaseTool → list ChatMessage → Result ChatResponse;
  _get_tool_call_from_response : ChatResponse → option ToolSelection
}.

(** *** Objects and the heap

    What [task.extra_state] holds is an integer or a reference to an
    object; the objects are the lists of tool outputs and the memory
    buffers. *)
Inductive Obj :=
| OSources (outs : list ToolOutput)
| OMemory (msgs : list ChatMessage).

Inductive StateVal :=
| SInt (n : Z)
| SRef (addr : nat).

Record Task := mkTask {
  task_id : string;
  input : string;
  memory : list ChatMessage;
  extra_state : gmap string StateVal
}.

Record TaskStep := mkTaskStep {
  step_task_id : string;
  step_id : string;
  step_input : option string
}.

Record AgentChatResponse := mkAgentChatResponse {
  response : string;
  sources : StateVal
}.

Record TaskStepOutput := mkTaskStepOutput {
  output : AgentChatResponse;
  task_step : TaskStep;
  is_last : bool;
  next_steps : list TaskStep
}.

(** The task that the methods of the worker receive, and the heap. *)
Record World := mkWorld {
  w_task : Task;
  w_heap : list Obj
}.

(** A computation reads and changes the world and returns or raises; what
    it changed before it raised stays changed. *)
Definition M (A : Type) : Type := World → Result A * World.

#[global] Instance M_ret : MRet M := λ A a w, (Ok a, w).
#[global] Instance M_bind : MBind M := λ A B f m w,
  match m w with
  | (Ok a, w') => f a w'
  | (Raise e, w') => (Raise e, w')
  end.

Definition raise {A} (c : ExnClass) (s : string) : M A :=
  λ w, (Raise (mkExn c s), w).

Definition lift {A} (r : Result A) : M A := λ w, (r, w).

Definition get_task : M Task := λ w, (Ok (w_task w), w).

Definition set_task (t : Task) : M () := λ w, (Ok (), mkWorld t (w_heap w)).

Definition alloc (o : Obj) : M StateVal :=
  λ w, (Ok (SRef (length (w_heap w))), mkWorld (w_task w) (w_heap w ++ [o])).

Definition store (addr : nat) (o : Obj) : M () :=
  λ w, (Ok (), mkWorld (w_task w) (<[addr := o]> (w_heap w))).

(** The memory buffer that a value refers to; a value that is none has
    none of the buffer's methods. *)
Definition as_memory (v : StateVal) : M (nat * list ChatMessage) :=
  λ w, match v with
       | SRef a =>
           match w_heap w !! a with
           | Some (OMemory msgs) => (Ok (a, msgs), w)
           | _ => (Raise (mkExn AttributeError "memory"), w)
           end
       | SInt _ => (Raise (mkExn AttributeError "memory"), w)
       end.

Definition as_sources (v : StateVal) : M (nat * list ToolOutput) :=
  λ w, match v with
       | SRef a =>
           match w_heap w !! a with
           | Some (OSources outs) => (Ok (a, outs), w)
           | _ => (Raise (mkExn AttributeError "append"), w)
           end
       | SInt _ => (Raise (mkExn AttributeError "append"), w)
       end.

(** What a value of the task state refers to, read without effect. *)
Definition deref_memory (v : StateVal) (w : World) : option (list ChatMessage) :=
  match v with
  | SRef a =>
      match w_heap w !! a with
      | Some (OMemory msgs) => Some msgs
      | _ => None
      end
  | SInt _ => None
  end.

Definition deref_sources (v : StateVal) (w : World) : option (list ToolOutput) :=
  match v with
  | SRef a =>
      match w_heap w !! a with
      | Some (OSources outs) => Some outs
      | _ => None
      end
  | SInt _ => None
  end.

(** The three parts of the task state: the ephemeral buffer, the list of
    tool outputs and the call counter. *)
Definition new_messages (w : World) : option (list ChatMessage) :=
  v ← extra_state (w_task w) !! "new_memory"; deref_memory v w.

Definition tool_outputs (w : World) : option (list ToolOutput) :=
  v ← extra_state (w_task w) !! "sources"; deref_sources v w.

Definition n_function_calls (w : World) : option Z :=
  match extra_state (w_task w) !! "n_function_calls" with
  | Some (SInt n) => Some n
  | _ => None
  end.

(** Modelled from the spec: [ChatMemoryBuffer] and [BaseMemory] are not
    under src/; a memory is an "ordered sequence of messages", [put]
    appends one message, [get_all] reads the sequence, [reset] empties
    it. *)
Definition put (memory : StateVal) (msg : ChatMessage) : M () :=
  '(a, msgs) ← as_memory memory;
  store a (OMemory (msgs ++ [msg])).

Definition get_all (memory : StateVal) : M (list ChatMessage) :=
  '(_, msgs) ← as_memory memory;
  mret msgs.

Definition reset (memory : StateVal) : M () :=
  '(a, _) ← as_memory memory;
  store a (OMemory []).

(** [sources.append(tool_output)] *)
Definition append (sources : StateVal) (o : ToolOutput) : M () :=
  '(a, outs) ← as_sources sources;
  store a (OSources (outs ++ [o])).

(** [task.extra_state[key]] *)
Definition extra_state_getitem (key : string) : M StateVal :=
  task ← get_task;
  lift (getitem (extra_state task) key).

(** Modelled from the spec: [add_user_step_to_memory] is not under src/;
    the input of the step is appended "as a user message into the
    ephemeral buffer". *)
Definition add_user_step_to_memory (step : TaskStep) (memory : StateVal) : M () :=
  let user_message := {| msg_content := step_input step; role := USER;
                         additional_kwargs := [] |} in
  put memory user_message.

(** Modelled from the spec: [TaskStep.get_next_step] is not under src/; it
    makes the continuation step of the same task. *)
Definition get_next_step (step : TaskStep) (step_id : string)
    (input : option string) : TaskStep :=
  {| step_task_id := step_task_id step; step_id := step_id; step_input := input |}.

Definition get_function_by_name (tools : list BaseTool) (name : string)
  : Result BaseTool :=
  let name_to_tool := tools_by_name tools in
  match name_to_tool !! name with
  | None => Raise (mkExn ValueError ("Tool with name " +:+ name +:+ " not found"))
  | Some _ => getitem name_to_tool name
  end.

Record FunctionCallingAgentWorker := mkWorker {
  _llm : LLM;
  _verbose : bool;
  _max_function_calls : Z;
  prefix_messages : list ChatMessage;
  _get_tools : string → list BaseTool
}.

(** [__init__]; the callback manager is not modelled. *)
Definition init (tools : list BaseTool) (llm : LLM)
    (prefix_messages : list ChatMessage) (verbose : bool)
    (max_function_calls : Z) (tool_retriever : option (string → list BaseTool))
  : Result FunctionCallingAgentWorker :=
  if negb (is_function_calling_model llm) then
    Raise (mkExn ValueError
      ("Model name " +:+ model llm +:+ " does not support function calling API. "))
  else
    get_tools ←
      (match 0 <? length tools, tool_retriever with
       | true, Some _ =>
           Raise (mkExn ValueError "Cannot specify both tools and tool_retriever")
       | true, None => Ok (λ _ : string, tools)
       | false, Some retrieve => Ok (λ message : string, retrieve message)
       | false, None => Ok (λ _ : string, [])   (* no tools *)
       end);
    Ok {| _llm := llm; _verbose := verbose;
          _max_function_calls := max_function_calls;
          prefix_messages := prefix_messages;
          _get_tools := get_tools |}.

Section Worker.

Variable self : FunctionCallingAgentWorker.

(** [uuid4] is the string that [str(uuid.uuid4())] yields in the call. *)
Definition initialize_step (uuid4 : string) : M TaskStep :=
  sources ← alloc (OSources []);
  new_memory ← alloc (OMemory []);
  let task_state : gmap string StateVal :=
    <["new_memory" := new_memory]>
      (<["n_function_calls" := SInt 0]> (<["sources" := sources]> ∅)) in
  task ← get_task;
  set_task {| task_id := task_id task; input := input task;
              memory := memory task;
              extra_state := task_state ∪ extra_state task |};;
  mret {| step_task_id := task_id task; step_id := uuid4;
          step_input := Some (input task) |}.

Definition get_tools (input : string) : list BaseTool :=
  adapt_to_async_tool <$> _get_tools self input.

Definition get_all_messages : M (list ChatMessage) :=
  task ← get_task;
  new_memory ← extra_state_getitem "new_memory";
  new_messages ← get_all new_memory;
  mret (prefix_messages self ++ memory task ++ new_messages).

(** The event of the callback manager is not modelled; what its payload
    evaluates is. *)
Definition _call_function (tools : list BaseTool) (tool_call : ToolSelection)
    (memory sources : StateVal) : M () :=
  lift (get_function_by_name tools (sel_tool_name tool_call));;
  tool_output ← lift (call_tool_with_selection tool_call tools);
  let function_message :=
    {| msg_content := Some (str_ToolOutput tool_output);
       role := TOOL;
       additional_kwargs :=
         [("name", VStr (sel_tool_name tool_call));
          ("tool_call_id", VStr (tool_id tool_call))] |} in
  append sources tool_output;;
  put memory function_message.

Definition _acall_function (tools : list BaseTool) (tool_call : ToolSelection)
    (memory sources : StateVal) : M () :=
  lift (get_function_by_name tools (sel_tool_name tool_call));;
  tool_output ← lift (acall_tool_with_selection tool_call tools);
  let function_message :=
    {| msg_content := Some (str_ToolOutput tool_output);
       role := TOOL;
       additional_kwargs :=
         [("name", VStr (sel_tool_name tool_call));
          ("tool_call_id", VStr (tool_id tool_call))] |} in
  append sources tool_output;;
  put memory function_message.

Definition run_step (uuid4 : string) (step : TaskStep) : M TaskStepOutput :=
  match step_input step with
  | Some _ =>
      new_memory ← extra_state_getitem "new_memory";
      add_user_step_to_memory step new_memory
  | None => mret ()
  end;;
  task ← get_task;
  let tools := get_tools (input task) in
  chat_history ← get_all_messages;
  response ← lift (chat_with_tool (_llm self) tools chat_history);
  let tool_call := _get_tool_call_from_response (_llm self) response in
  new_memory ← extra_state_getitem "new_memory";
  put new_memory (message response);;
  '(is_done, new_steps) ←
    match tool_call with
    | None => mret (true, [])
    | Some tool_call =>
        new_memory ← extra_state_getitem "new_memory";
        sources ← extra_state_getitem "sources";
        _call_function tools tool_call new_memory sources;;
        mret (false, [get_next_step step uuid4 None])
    end;
  sources ← extra_state_getitem "sources";
  mret {| output := {| response := response_str response; sources := sources |};
          task_step := step;
          is_last := is_done;
          next_steps := new_steps |}.

Definition arun_step (uuid4 : string) (step : TaskStep) : M TaskStepOutput :=
  match step_input step with
  | Some _ =>
      new_memory ← extra_state_getitem "new_memory";
      add_user_step_to_memory step new_memory
  | None => mret ()
  end;;
  task ← get_task;
  let tools := get_tools (input task) in
  chat_history ← get_all_messages;
  response ← lift (achat_with_tool (_llm self) tools chat_history);
  let tool_call := _get_tool_call_from_response (_llm self) response in
  new_memory ← extra_state_getitem "new_memory";
  put new_memory (message response);;
  '(is_done, new_steps) ←
    match tool_call with
    | None => mret (true, [])
    | Some tool_call =>
        new_memory ← extra_state_getitem "new_memory";
        sources ← extra_state_getitem "sources";
        _acall_function tools tool_call new_memory sources;;
        mret (false, [get_next_step step uuid4 None])
    end;
  sources ← extra_state_getitem "sources";
  mret {| output := {| response := response_str response; sources := sources |};
          task_step := step;
          is_last := is_done;
          next_steps := new_steps |}.

Definition stream_step (step : TaskStep) : M TaskStepOutput :=
  raise NotImplementedError "Stream not supported for function calling agent".

Definition astream_step (step : TaskStep) : M TaskStepOutput :=
  raise NotImplementedError "Stream not supported for function calling agent".

Definition finalize_task : M () :=
  task ← get_task;
  new_memory ← extra_state_getitem "new_memory";
  new_messages ← get_all new_memory;
  set_task {| task_id := task_id task; input := input task;
              memory := memory task ++ new_messages;
              extra_state := extra_state task |};;
  new_memory ← extra_state_getitem "new_memory";
  reset new_memory.

End Worker.

End Step.
Export Step.

(** ** The messages a step appends *)

Module Messages.

(** The user message of a step that carries input. *)
Definition user_messages (step : TaskStep) : list ChatMessage :=
  match step_input step with
  | Some s => [mkChatMessage USER (Some s) []]
  | None => []
  end.

(** The tool-role message that records the output of a tool call. *)
Definition tool_message (tool_call : ToolSelection) (o : ToolOutput) : ChatMessage :=
  mkChatMessage TOOL (Some (content o))
    [("name", VStr (sel_tool_name tool_call));
     ("tool_call_id", VStr (tool_id tool_call))].

(** The binding rule in the words of the specification: one declared
    parameter and one supplied argument give one positional argument;
    everything else gives the mapping as named arguments. *)
Definition binding_rule (tool : BaseTool) (arguments : dict) : list Value * dict :=
  match properties (metadata tool), arguments with
  | [_], [(_, v)] => ([v], [])
  | _, _ => ([], arguments)
  end.

End Messages.
Export Messages.

(** ** The shape of an initialised task state *)

Module TaskState.

(** The world in which the ephemeral buffer at [am] holds [msgs], and the
    one in which the list of tool outputs at [ao] holds [outs]. *)
Definition set_memory (w : World) (am : nat) (msgs : list ChatMessage) : World :=
  mkWorld (w_task w) (<[am := OMemory msgs]> (w_heap w)).

Definition set_sources (w : World) (ao : nat) (outs : list ToolOutput) : World :=
  mkWorld (w_task w) (<[ao := OSources outs]> (w_heap w)).

(** The two references of the task state name a buffer that holds [msgs]
    and a list that holds [outs]. *)
Definition task_state_at (w : World) (am ao : nat)
    (msgs : list ChatMessage) (outs : list ToolOutput) : Prop :=
  extra_state (w_task w) !! "new_memory" = Some (SRef am) ∧
  extra_state (w_task w) !! "sources" = Some (SRef ao) ∧
  w_heap w !! am = Some (OMemory msgs) ∧
  w_heap w !! ao = Some (OSources outs).

(** What a step returns, and the world it leaves, from the answer of the
    backend and the outcome of the tool call. *)
Definition step_outcome (uuid4 : string) (step : TaskStep) (w : World)
    (am ao : nat) (msgs1 : list ChatMessage) (outs : list ToolOutput)
    (get_tool_call : ChatResponse → option ToolSelection)
    (answer : Result ChatResponse)
    (invoke : ToolSelection → Result ToolOutput)
  : Result TaskStepOutput * World :=
  match answer with
  | Raise e => (Raise e, set_memory w am msgs1)
  | Ok resp =>
      let agent_response :=
        {| response := response_str resp; sources := SRef ao |} in
      match get_tool_call resp with
      | None =>
          (Ok {| output := agent_response; task_step := step;
                 is_last := true; next_steps := [] |},
           set_memory w am (msgs1 ++ [message resp]))
      | Some tc =>
          match invoke tc with
          | Raise e => (Raise e, set_memory w am (msgs1 ++ [message resp]))
          | Ok o =>
              (Ok {| output := agent_response; task_step := step;
                     is_last := false;
                     next_steps := [get_next_step step uuid4 None] |},
               set_memory (set_sources w ao (outs ++ [o])) am
                 (msgs1 ++ [message resp; tool_message tc o]))
          end
      end
  end.

(** A computation that leaves the task record as it is (it may change
    the objects of the heap). *)
Definition preserves_task {A} (m : M A) : Prop :=
  ∀ w, w_task (m w).2 = w_task w.

End TaskState.
Export TaskState.

(** ** A tool catalogue, two backends and a task to run them on *)

Module Scenario.

Definition lookup_int (kwargs : dict) (k : string) : option Z :=
  match list_find (λ kv, bool_decide (kv.1 = k)) kwargs with
  | Some (_, (_, VInt z)) => Some z
  | _ => None
  end.

(** [add(a, b)] *)
Definition add_tool : BaseTool :=
  SyncTool {| name := "add"; properties := ["a"; "b"] |}
    (λ args kwargs,
       match args, lookup_int kwargs "a", lookup_int kwargs "b" with
       | [], Some a, Some b =>
           Ok {| content := pretty (a + b)%Z; tool_name := "add";
                 raw_input := kwargs; raw_output := VInt (a + b) |}
       | _, _, _ => Raise (mkExn TypeError "add() got unexpected arguments")
       end).

(** [shout(text)], a tool of one parameter that tells how it was called. *)
Definition shout_tool : BaseTool :=
  SyncTool {| name := "shout"; properties := ["text"] |}
    (λ args kwargs,
       match args, kwargs with
       | [VStr s], [] =>
           Ok {| content := s +:+ "!"; tool_name := "shout";
                 raw_input := []; raw_output := VStr "positional" |}
       | _, _ =>
           Ok {| content := ""; tool_name := "shout";
                 raw_input := kwargs; raw_output := VStr "named" |}
       end).

(** A tool that fails with a [ValueError]. *)
Definition failing_tool : BaseTool :=
  SyncTool {| name := "fail"; properties := ["x"; "y"] |}
    (λ _ _, Raise (mkExn ValueError "boom")).

(** A tool during which the user interrupts the program. *)
Definition interrupted_tool : BaseTool :=
  SyncTool {| name := "search"; properties := ["query"] |}
    (λ _ _, Raise (mkExn KeyboardInterrupt "")).

(** An asynchronous tool whose awaited call is cancelled. *)
Definition cancelled_tool : BaseTool :=
  AsyncTool {| name := "fetch"; properties := ["url"] |}
    (λ _ _, Raise (mkExn CancelledError ""))
    (λ _ _, Raise (mkExn CancelledError "")).

Definition select_add : ToolSelection :=
  {| tool_id := "call_1"; sel_tool_name := "add";
     tool_kwargs := [("a", VInt 2); ("b", VInt 3)] |}.

Definition select_missing : ToolSelection :=
  {| tool_id := "call_2"; sel_tool_name := "multiply";
     tool_kwargs := [("a", VInt 2); ("b", VInt 3)] |}.

Definition has_tool_message (msgs : list ChatMessage) : bool :=
  existsb (λ m, match role m with TOOL => true | _ => false end) msgs.

Definition wants_add : ChatResponse :=
  {| message := mkChatMessage ASSISTANT None [];
     response_str := "assistant: None"; raw_tool_calls := [select_add] |}.

Definition says_seven : ChatResponse :=
  {| message := mkChatMessage ASSISTANT (Some "7") [];
     response_str := "assistant: 7"; raw_tool_calls := [] |}.

(** The backend that selects [add] until it sees a tool message. *)
Definition scripted_llm : LLM :=
  let chat := λ (_ : list BaseTool) (history : list ChatMessage),
    if has_tool_message history then Ok says_seven else Ok wants_add in
  {| model := "scripted"; is_function_calling_model := true;
     chat_with_tool := chat; achat_with_tool := chat;
     _get_tool_call_from_response := λ r, head (raw_tool_calls r) |}.

(** The backend that answers at once. *)
Definition direct_llm : LLM :=
  let chat := λ (_ : list BaseTool) (_ : list ChatMessage), Ok says_seven in
  {| model := "direct"; is_function_calling_model := true;
     chat_with_tool := chat; achat_with_tool := chat;
     _get_tool_call_from_response := λ r, head (raw_tool_calls r) |}.

(** The backend that selects [add] whatever it sees. *)
Definition eager_llm : LLM :=
  let chat := λ (_ : list BaseTool) (_ : list ChatMessage), Ok wants_add in
  {| model := "eager"; is_function_calling_model := true;
     chat_with_tool := chat; achat_with_tool := chat;
     _get_tool_call_from_response := λ r, head (raw_tool_calls r) |}.

Definition system_message : ChatMessage :=
  mkChatMessage SYSTEM (Some "You add numbers.") [].

Definition adder : FunctionCallingAgentWorker :=
  {| _llm := scripted_llm; _verbose := false; _max_function_calls := 5;
     prefix_messages := [system_message];
     _get_tools := λ _, [add_tool] |}.

Definition answerer : FunctionCallingAgentWorker :=
  {| _llm := direct_llm; _verbose := false; _max_function_calls := 5;
     prefix_messages := [system_message];
     _get_tools := λ _, [add_tool] |}.

Definition caller : FunctionCallingAgentWorker :=
  {| _llm := eager_llm; _verbose := false; _max_function_calls := 5;
     prefix_messages := [system_message];
     _get_tools := λ _, [add_tool] |}.

Definition earlier_message : ChatMessage :=
  mkChatMessage USER (Some "Hello") [].

Definition new_task : Task :=
  {| task_id := "t1"; input := "What is 2 + 3?";
     memory := [earlier_message]; extra_state := ∅ |}.

Definition world0 : World := {| w_task := new_task; w_heap := [] |}.

(** The task after [initialize_step]. *)
Definition step1 : TaskStep :=
  {| step_task_id := "t1"; step_id := "s1"; step_input := Some "What is 2 + 3?" |}.

Definition world1 : World := (initialize_step "s1" world0).2.

(** The task after the first step of [adder], which calls [add]. *)
Definition step2 : TaskStep :=
  {| step_task_id := "t1"; step_id := "s2"; step_input := None |}.

Definition world2 : World := (run_step adder "s2" step1 world1).2.

Definition five : ToolOutput :=
  {| content := "5"; tool_name := "add";
     raw_input := [("a", VInt 2); ("b", VInt 3)]; raw_output := VInt 5 |}.

Definition user_message : ChatMessage :=
  mkChatMessage USER (Some "What is 2 + 3?") [].

Definition five_message : ChatMessage :=
  mkChatMessage TOOL (Some "5")
    [("name", VStr "add"); ("tool_call_id", VStr "call_1")].

(** What the first step of [adder] returns. *)
Definition out1 : TaskStepOutput :=
  {| output := {| response := "assistant: None"; sources := SRef 0 |};
     task_step := step1;
     is_last := false;
     next_steps := [step2] |}.

End Scenario.

(** ** The rest of step.py: the constructor from defaults *)

Module Construction.

Definition DEFAULT_MAX_FUNCTION_CALLS : Z := 5.

(** [from_tools].  [settings_llm] is what [Settings.llm] yields; the
    callback manager is not modelled. *)
Definition from_tools (settings_llm : LLM)
    (tools : option (list BaseTool))
    (tool_retriever : option (string → list BaseTool))
    (llm : option LLM) (verbose : bool) (max_function_calls : Z)
    (system_prompt : option string)
    (prefix_messages : option (list ChatMessage))
  : Result FunctionCallingAgentWorker :=
  let tools := default [] tools in
  let llm := default settings_llm llm in
  prefix_messages ←
    (match system_prompt with
     | Some system_prompt =>
         match prefix_messages with
         | Some _ =>
             Raise (mkExn ValueError
                      "Cannot specify both system_prompt and prefix_messages")
         | None =>
             Ok (Some [{| msg_content := Some system_prompt; role := SYSTEM;
                          additional_kwargs := [] |}])
         end
     | None => Ok prefix_messages
     end);
  let prefix_messages := default [] prefix_messages in
  init tools llm prefix_messages verbose max_function_calls tool_retriever.

End Construction.
Export Construction.

(** ** Steps run one after the other *)

Module Chain.

(** The steps of a task run in a row: each step returns, is followed by
    its one continuation step, and that step is run next.  The list
    holds what the steps returned, the first step first. *)
Inductive run_steps (self : FunctionCallingAgentWorker)
  : TaskStep → World → list TaskStepOutput → World → Prop :=
| run_steps_done step w : run_steps self step w [] w
| run_steps_next uuid4 step w out w1 next outs w2 :
    run_step self uuid4 step w = (Ok out, w1) →
    next_steps out = [next] →
    run_steps self next w1 outs w2 →
    run_steps self step w (out :: outs) w2.

(** The backend asks for a tool of the catalogue whatever it is shown,
    and no tool call raises past the invoker. *)
Definition always_selects (self : FunctionCallingAgentWorker) : Prop :=
  ∀ input history, ∃ resp tc o,
    chat_with_tool (_llm self) (get_tools self input) history = Ok resp ∧
    _get_tool_call_from_response (_llm self) resp = Some tc ∧
    call_tool_with_selection tc (get_tools self input) = Ok o.

End Chain.
Export Chain.

(** ** Workers whose tool calls go wrong *)

Module Failures.

Definition select_fail : ToolSelection :=
  {| tool_id := "call_3"; sel_tool_name := "fail";
     tool_kwargs := [("x", VInt 1); ("y", VInt 2)] |}.

Definition wants (tc : ToolSelection) : ChatResponse :=
  {| message := mkChatMessage ASSISTANT None [];
     response_str := "assistant: None"; raw_tool_calls := [tc] |}.

(** The backend that selects [tc] whatever it sees. *)
Definition insisting_llm (tc : ToolSelection) : LLM :=
  let chat := λ (_ : list BaseTool) (_ : list ChatMessage), Ok (wants tc) in
  {| model := "insisting"; is_function_calling_model := true;
     chat_with_tool := chat; achat_with_tool := chat;
     _get_tool_call_from_response := λ r, head (raw_tool_calls r) |}.

(** The backend that is out of reach. *)
Definition unreachable_llm : LLM :=
  let chat := λ (_ : list BaseTool) (_ : list ChatMessage),
    Raise (mkExn RuntimeError "connection refused") in
  {| model := "unreachable"; is_function_calling_model := true;
     chat_with_tool := chat; achat_with_tool := chat;
     _get_tool_call_from_response := λ r, head (raw_tool_calls r) |}.

(** A model without tool calling. *)
Definition plain_llm : LLM :=
  let chat := λ (_ : list BaseTool) (_ : list ChatMessage), Ok Scenario.says_seven in
  {| model := "plain"; is_function_calling_model := false;
     chat_with_tool := chat; achat_with_tool := chat;
     _get_tool_call_from_response := λ _, None |}.

Definition worker_of (llm : LLM) (tools : list BaseTool)
  : FunctionCallingAgentWorker :=
  {| _llm := llm; _verbose := false; _max_function_calls := 1;
     prefix_messages := [Scenario.system_message];
     _get_tools := λ _, tools |}.

(** Its tool fails with a [ValueError]. *)
Definition breaker : FunctionCallingAgentWorker :=
  worker_of (insisting_llm select_fail) [Scenario.failing_tool].

(** Its backend selects a tool that the catalogue has not. *)
Definition stray : FunctionCallingAgentWorker :=
  worker_of (insisting_llm Scenario.select_missing) [Scenario.add_tool].

(** Its backend cannot be reached. *)
Definition offline : FunctionCallingAgentWorker :=
  worker_of unreachable_llm [Scenario.add_tool].

(** Two tools of one name; the later one shouts. *)
Definition quiet_tool : BaseTool :=
  SyncTool {| name := "shout"; properties := ["text"] |}
    (λ _ _, Ok {| content := ""; tool_name := "shout"; raw_input := [];
                  raw_output := VNone |}).

Definition select_shout : ToolSelection :=
  {| tool_id := "call_4"; sel_tool_name := "shout";
     tool_kwargs := [("text", VStr "hi")] |}.

(** A tool that ends the program: [sys.exit(1)]. *)
Definition exiting_tool : BaseTool :=
  SyncTool {| name := "quit"; properties := ["code"] |}
    (λ _ _, Raise (mkExn SystemExit "1")).

(** The first two steps of [Scenario.caller], whose backend selects
    [add] on each, and what they leave. *)
Definition called_once : Result TaskStepOutput * World :=
  run_step Scenario.caller "s2" Scenario.step1 Scenario.world1.

Definition called_twice : Result TaskStepOutput * World :=
  run_step Scenario.caller "s3" Scenario.step2 called_once.2.

Definition call1 : TaskStepOutput :=
  {| output := {| response := "assistant: None"; sources := SRef 0 |};
     task_step := Scenario.step1;
     is_last := false;
     next_steps := [Scenario.step2] |}.

Definition call2 : TaskStepOutput :=
  {| output := {| response := "assistant: None"; sources := SRef 0 |};
     task_step := Scenario.step2;
     is_last := false;
     next_steps := [{| step_task_id := "t1"; step_id := "s3";
                       step_input := None |}] |}.

End Failures.

(** * Properties *)

(** ** The catalogue as a dictionary *)

Section ToolsByName.

Implicit Types (tools : list BaseTool) (acc : gmap string BaseTool).

Lemma foldl_insert_None tools acc (n : string) :
  foldl (λ m tool, <[name (metadata tool) := tool]> m) acc tools !! n = None ↔
  acc !! n = None ∧ n ∉ (name ∘ metadata) <$> tools.
Proof.
  revert acc. induction tools as [|t tools IH]; intros acc; simpl.
  - split; [intros H; split; [done | apply not_elem_of_nil] | by intros [H _]].
  - rewrite IH. rewrite lookup_insert_None.
    rewrite not_elem_of_cons. simpl. intuition congruence.
Qed.

Lemma foldl_insert_Some tools acc (n : string) (t : BaseTool) :
  foldl (λ m tool, <[name (metadata tool) := tool]> m) acc tools !! n = Some t →
  (t ∈ tools ∧ name (metadata t) = n) ∨ acc !! n = Some t.
Proof.
  revert acc. induction tools as [|t' tools IH]; intros acc; simpl.
  - by right.
  - intros H. apply IH in H as [[Hin Hn] | H].
    + left. split; [by apply list_elem_of_further | done].
    + apply lookup_insert_Some in H as [[Hn Ht] | [_ H]].
      * subst. left. split; [apply list_elem_of_here | done].
      * by right.
Qed.

Lemma tools_by_name_None tools (n : string) :
  tools_by_name tools !! n = None ↔ n ∉ (name ∘ metadata) <$> tools.
Proof.
  unfold tools_by_name. rewrite (foldl_insert_None tools ∅ n).
  rewrite lookup_empty. tauto.
Qed.

Lemma tools_by_name_Some tools (n : string) (t : BaseTool) :
  tools_by_name tools !! n = Some t → t ∈ tools ∧ name (metadata t) = n.
Proof.
  intros H. apply (foldl_insert_Some tools ∅ n t) in H as [H | H]; [done |].
  by rewrite lookup_empty in H.
Qed.

End ToolsByName.

(** ** Running a computation *)

Section Monad.

Context {A B : Type}.
Implicit Types (m : M A) (f : A → M B) (w : World).

Lemma bind_Ok m f w a w1 : m w = (Ok a, w1) → (m ≫= f) w = f a w1.
Proof. intros H. unfold mbind, M_bind. by rewrite H. Qed.

Lemma bind_Raise m f w e w1 : m w = (Raise e, w1) → (m ≫= f) w = (Raise e, w1).
Proof. intros H. unfold mbind, M_bind. by rewrite H. Qed.

Lemma bind_ext m f (g : A → M B) w :
  (∀ a w1, f a w1 = g a w1) → (m ≫= f) w = (m ≫= g) w.
Proof.
  intros H. unfold mbind, M_bind. destruct (m w) as [[a|e] w1]; [apply H | done].
Qed.

End Monad.


(** ** The objects of the task state *)

Section TaskStateLemmas.

Variables (w : World) (am ao : nat).
Variables (msgs : list ChatMessage) (outs : list ToolOutput).
Hypothesis Hw : task_state_at w am ao msgs outs.

Lemma task_state_at_distinct : am ≠ ao.
Proof. destruct Hw as (_ & _ & Hm & Ho). intros ->. congruence. Qed.

Lemma task_state_at_set_memory msgs' :
  task_state_at (set_memory w am msgs') am ao msgs' outs.
Proof.
  pose proof task_state_at_distinct as Hne.
  destruct Hw as (Hkm & Hko & Hm & Ho). repeat split; simpl; [done | done | |].
  - apply list_lookup_insert_eq. by eapply lookup_lt_Some.
  - by rewrite list_lookup_insert_ne.
Qed.

Lemma task_state_at_set_sources outs' :
  task_state_at (set_sources w ao outs') am ao msgs outs'.
Proof.
  pose proof task_state_at_distinct as Hne.
  destruct Hw as (Hkm & Hko & Hm & Ho). repeat split; simpl; [done | done | |].
  - by rewrite list_lookup_insert_ne.
  - apply list_lookup_insert_eq. by eapply lookup_lt_Some.
Qed.

Lemma set_memory_id : set_memory w am msgs = w.
Proof.
  destruct Hw as (_ & _ & Hm & _). destruct w as [t h]. unfold set_memory. simpl in *.
  by rewrite list_insert_id.
Qed.

Lemma getitem_new_memory : extra_state_getitem "new_memory" w = (Ok (SRef am), w).
Proof.
  destruct Hw as (Hkm & _). unfold extra_state_getitem, get_task, lift, getitem.
  unfold mbind, M_bind. by rewrite Hkm.
Qed.

Lemma getitem_sources : extra_state_getitem "sources" w = (Ok (SRef ao), w).
Proof.
  destruct Hw as (_ & Hko & _). unfold extra_state_getitem, get_task, lift, getitem.
  unfold mbind, M_bind. by rewrite Hko.
Qed.

Lemma get_all_new_memory : get_all (SRef am) w = (Ok msgs, w).
Proof.
  destruct Hw as (_ & _ & Hm & _). unfold get_all, as_memory, mbind, M_bind.
  by rewrite Hm.
Qed.

Lemma put_new_memory msg :
  put (SRef am) msg w = (Ok (), set_memory w am (msgs ++ [msg])).
Proof.
  destruct Hw as (_ & _ & Hm & _). unfold put, as_memory, store, mbind, M_bind.
  by rewrite Hm.
Qed.

Lemma append_sources o :
  append (SRef ao) o w = (Ok (), set_sources w ao (outs ++ [o])).
Proof.
  destruct Hw as (_ & _ & _ & Ho). unfold append, as_sources, store, mbind, M_bind.
  by rewrite Ho.
Qed.

Lemma new_messages_at : new_messages w = Some msgs.
Proof.
  destruct Hw as (Hkm & _ & Hm & _). unfold new_messages. rewrite Hkm. simpl.
  by rewrite Hm.
Qed.

Lemma tool_outputs_at : tool_outputs w = Some outs.
Proof.
  destruct Hw as (_ & Hko & _ & Ho). unfold tool_outputs. rewrite Hko. simpl.
  by rewrite Ho.
Qed.

End TaskStateLemmas.

Lemma set_memory_twice w am msgs msgs' :
  set_memory (set_memory w am msgs) am msgs' = set_memory w am msgs'.
Proof. unfold set_memory. simpl. by rewrite list_insert_insert_eq. Qed.

(** An initialised task has a state of this shape. *)
Lemma task_state_at_intro w msgs outs :
  new_messages w = Some msgs → tool_outputs w = Some outs →
  ∃ am ao, task_state_at w am ao msgs outs.
Proof.
  unfold new_messages, tool_outputs, task_state_at.
  destruct (extra_state (w_task w) !! "new_memory") as [[n|am]|]; simpl; try done.
  destruct (extra_state (w_task w) !! "sources") as [[n|ao]|]; simpl; try done.
  all: destruct (w_heap w !! am) as [[?|m]|] eqn:Hm; try done.
  destruct (w_heap w !! ao) as [[o|?]|] eqn:Ho; try done.
  intros [= ->] [= ->]. by exists am, ao.
Qed.

(** ** One step, on an initialised task *)

(** Runs the first statement of a sequence with the equation that [tac]
    proves for it. *)
Ltac mstep tac :=
  lazymatch goal with
  | |- (?m ≫= ?f) ?w = _ =>
      let H := fresh in
      eassert (m w = (Ok _, _)) as H; [tac |];
      refine (eq_trans (bind_Ok m f w _ _ H) _); clear H; cbv beta
  end.

(** The same for a statement that computes its result. *)
Ltac mpure := mstep ltac:(idtac; reflexivity).

Section StepSpec.

Variable self : FunctionCallingAgentWorker.
Variables (uuid4 : string) (step : TaskStep).
Variables (w : World) (am ao : nat).
Variables (msgs : list ChatMessage) (outs : list ToolOutput).
Hypothesis Hw : task_state_at w am ao msgs outs.

Lemma get_all_messages_at :
  get_all_messages self w =
    (Ok (prefix_messages self ++ memory (w_task w) ++ msgs), w).
Proof.
  unfold get_all_messages.
  mpure. mstep ltac:(idtac; by eapply getitem_new_memory).
  mstep ltac:(idtac; by eapply get_all_new_memory). done.
Qed.

(** The first statement of a step: the user message, if the step has
    input. *)
Lemma user_step_at :
  match step_input step with
  | Some _ =>
      new_memory ← extra_state_getitem "new_memory";
      add_user_step_to_memory step new_memory
  | None => mret ()
  end w = (Ok (), set_memory w am (msgs ++ user_messages step)).
Proof.
  unfold user_messages, add_user_step_to_memory.
  destruct (step_input step) as [s|].
  - mstep ltac:(idtac; by eapply getitem_new_memory). by eapply put_new_memory.
  - rewrite app_nil_r, (set_memory_id _ _ _ _ _ Hw). done.
Qed.

Lemma call_function_at tools tc o :
  (get_function_by_name tools (sel_tool_name tc) ≫=
     λ _, call_tool_with_selection tc tools) = Ok o →
  _call_function tools tc (SRef am) (SRef ao) w =
    (Ok (), set_memory (set_sources w ao (outs ++ [o])) am
              (msgs ++ [tool_message tc o])).
Proof.
  intros H. unfold _call_function.
  destruct (get_function_by_name tools (sel_tool_name tc)) as [t|e] eqn:Ht;
    [| done].
  simpl in H. mpure. rewrite H. mpure.
  mstep ltac:(idtac; by eapply append_sources).
  eapply put_new_memory. apply (task_state_at_set_sources _ _ _ _ _ Hw).
Qed.

Lemma call_function_raises tools tc e :
  (get_function_by_name tools (sel_tool_name tc) ≫=
     λ _, call_tool_with_selection tc tools) = Raise e →
  _call_function tools tc (SRef am) (SRef ao) w = (Raise e, w).
Proof.
  intros H. unfold _call_function.
  destruct (get_function_by_name tools (sel_tool_name tc)) as [t|e'] eqn:Ht.
  - simpl in H. mpure. rewrite H. done.
  - simpl in H. injection H as ->. done.
Qed.

End StepSpec.

Section AsyncStepSpec.

Variables (w : World) (am ao : nat).
Variables (msgs : list ChatMessage) (outs : list ToolOutput).
Hypothesis Hw : task_state_at w am ao msgs outs.

Lemma acall_function_at tools tc o :
  (get_function_by_name tools (sel_tool_name tc) ≫=
     λ _, acall_tool_with_selection tc tools) = Ok o →
  _acall_function tools tc (SRef am) (SRef ao) w =
    (Ok (), set_memory (set_sources w ao (outs ++ [o])) am
              (msgs ++ [tool_message tc o])).
Proof.
  intros H. unfold _acall_function.
  destruct (get_function_by_name tools (sel_tool_name tc)) as [t|e] eqn:Ht;
    [| done].
  simpl in H. mpure. rewrite H. mpure.
  mstep ltac:(idtac; by eapply append_sources).
  eapply put_new_memory. apply (task_state_at_set_sources _ _ _ _ _ Hw).
Qed.

Lemma acall_function_raises tools tc e :
  (get_function_by_name tools (sel_tool_name tc) ≫=
     λ _, acall_tool_with_selection tc tools) = Raise e →
  _acall_function tools tc (SRef am) (SRef ao) w = (Raise e, w).
Proof.
  intros H. unfold _acall_function.
  destruct (get_function_by_name tools (sel_tool_name tc)) as [t|e'] eqn:Ht.
  - simpl in H. mpure. rewrite H. done.
  - simpl in H. injection H as ->. done.
Qed.

End AsyncStepSpec.

Section StepOutcome.

Variable self : FunctionCallingAgentWorker.
Variables (uuid4 : string) (step : TaskStep).
Variables (w : World) (am ao : nat).
Variables (msgs : list ChatMessage) (outs : list ToolOutput).
Hypothesis Hw : task_state_at w am ao msgs outs.

Let tools := get_tools self (input (w_task w)).
Let msgs1 := msgs ++ user_messages step.
Let context := prefix_messages self ++ memory (w_task w) ++ msgs1.

Lemma run_step_at :
  run_step self uuid4 step w =
    step_outcome uuid4 step w am ao msgs1 outs
      (_get_tool_call_from_response (_llm self))
      (chat_with_tool (_llm self) tools context)
      (λ tc, get_function_by_name tools (sel_tool_name tc) ≫=
               λ _, call_tool_with_selection tc tools).
Proof.
  pose proof (task_state_at_set_memory _ _ _ _ _ Hw msgs1) as Hw1.
  unfold run_step. mstep ltac:(idtac; by eapply user_step_at).
  mpure. mstep ltac:(idtac; by eapply get_all_messages_at).
  change (w_task (set_memory w am (msgs ++ user_messages step))) with (w_task w).
  fold msgs1 tools context. unfold step_outcome.
  destruct (chat_with_tool (_llm self) tools context) as [resp|e]; [| reflexivity].
  mpure. mstep ltac:(idtac; by eapply getitem_new_memory).
  mstep ltac:(idtac; by eapply put_new_memory).
  rewrite set_memory_twice.
  pose proof (task_state_at_set_memory _ _ _ _ _ Hw (msgs1 ++ [message resp])) as Hw2.
  destruct (_get_tool_call_from_response (_llm self) resp) as [tc|].
  - destruct (get_function_by_name tools (sel_tool_name tc) ≫=
                λ _, call_tool_with_selection tc tools) as [o|e] eqn:Hcall.
    + mstep ltac:(idtac;
        mstep ltac:(idtac; by eapply getitem_new_memory);
        mstep ltac:(idtac; by eapply getitem_sources);
        mstep ltac:(idtac; by eapply call_function_at);
        reflexivity).
      mstep ltac:(idtac; eapply getitem_sources, task_state_at_set_memory,
                         task_state_at_set_sources, Hw2).
      unfold mret, M_ret. f_equal. unfold set_memory, set_sources. simpl.
      f_equal. rewrite (list_insert_insert_ne _ ao am), list_insert_insert_eq.
      * by rewrite <- (assoc_L (++)).
      * apply not_eq_sym. by eapply task_state_at_distinct.
    + apply bind_Raise.
      mstep ltac:(idtac; by eapply getitem_new_memory).
      mstep ltac:(idtac; by eapply getitem_sources).
      apply bind_Raise. by eapply call_function_raises.
  - mpure. mstep ltac:(idtac; by eapply getitem_sources). done.
Qed.

End StepOutcome.

Section AsyncStepOutcome.

Variable self : FunctionCallingAgentWorker.
Variables (uuid4 : string) (step : TaskStep).
Variables (w : World) (am ao : nat).
Variables (msgs : list ChatMessage) (outs : list ToolOutput).
Hypothesis Hw : task_state_at w am ao msgs outs.

Let tools := get_tools self (input (w_task w)).
Let msgs1 := msgs ++ user_messages step.
Let context := prefix_messages self ++ memory (w_task w) ++ msgs1.

Lemma arun_step_at :
  arun_step self uuid4 step w =
    step_outcome uuid4 step w am ao msgs1 outs
      (_get_tool_call_from_response (_llm self))
      (achat_with_tool (_llm self) tools context)
      (λ tc, get_function_by_name tools (sel_tool_name tc) ≫=
               λ _, acall_tool_with_selection tc tools).
Proof.
  pose proof (task_state_at_set_memory _ _ _ _ _ Hw msgs1) as Hw1.
  unfold arun_step. mstep ltac:(idtac; by eapply user_step_at).
  mpure. mstep ltac:(idtac; by eapply get_all_messages_at).
  change (w_task (set_memory w am (msgs ++ user_messages step))) with (w_task w).
  fold msgs1 tools context. unfold step_outcome.
  destruct (achat_with_tool (_llm self) tools context) as [resp|e]; [| reflexivity].
  mpure. mstep ltac:(idtac; by eapply getitem_new_memory).
  mstep ltac:(idtac; by eapply put_new_memory).
  rewrite set_memory_twice.
  pose proof (task_state_at_set_memory _ _ _ _ _ Hw (msgs1 ++ [message resp])) as Hw2.
  destruct (_get_tool_call_from_response (_llm self) resp) as [tc|].
  - destruct (get_function_by_name tools (sel_tool_name tc) ≫=
                λ _, acall_tool_with_selection tc tools) as [o|e] eqn:Hcall.
    + mstep ltac:(idtac;
        mstep ltac:(idtac; by eapply getitem_new_memory);
        mstep ltac:(idtac; by eapply getitem_sources);
        mstep ltac:(idtac; by eapply acall_function_at);
        reflexivity).
      mstep ltac:(idtac; eapply getitem_sources, task_state_at_set_memory,
                         task_state_at_set_sources, Hw2).
      unfold mret, M_ret. f_equal. unfold set_memory, set_sources. simpl.
      f_equal. rewrite (list_insert_insert_ne _ ao am), list_insert_insert_eq.
      * by rewrite <- (assoc_L (++)).
      * apply not_eq_sym. by eapply task_state_at_distinct.
    + apply bind_Raise.
      mstep ltac:(idtac; by eapply getitem_new_memory).
      mstep ltac:(idtac; by eapply getitem_sources).
      apply bind_Raise. by eapply acall_function_raises.
  - mpure. mstep ltac:(idtac; by eapply getitem_sources). done.
Qed.

End AsyncStepOutcome.

(** ** The state that [initialize_step] makes *)

Lemma initialize_step_world uuid4 w :
  (initialize_step uuid4 w).2 =
    {| w_task :=
         {| task_id := task_id (w_task w); input := input (w_task w);
            memory := memory (w_task w);
            extra_state :=
              <["new_memory" := SRef (S (length (w_heap w)))]>
                (<["n_function_calls" := SInt 0]>
                   (<["sources" := SRef (length (w_heap w))]> ∅))
              ∪ extra_state (w_task w) |};
       w_heap := w_heap w ++ [OSources []; OMemory []] |}.
Proof.
  destruct w as [t h]. unfold initialize_step, alloc, get_task, set_task.
  unfold mbind, M_bind, mret, M_ret. simpl.
  rewrite length_app, Nat.add_1_r, <- (assoc_L (++)). done.
Qed.

Lemma initialize_step_at uuid4 w :
  initialize_step uuid4 w =
    (Ok {| step_task_id := task_id (w_task w); step_id := uuid4;
           step_input := Some (input (w_task w)) |},
     (initialize_step uuid4 w).2) ∧
  task_state_at (initialize_step uuid4 w).2
    (S (length (w_heap w))) (length (w_heap w)) [] [] ∧
  n_function_calls (initialize_step uuid4 w).2 = Some 0%Z ∧
  input (w_task (initialize_step uuid4 w).2) = input (w_task w) ∧
  memory (w_task (initialize_step uuid4 w).2) = memory (w_task w).
Proof.
  split; [by destruct w |]. rewrite initialize_step_world.
  unfold task_state_at, n_function_calls. simpl.
  repeat split.
  - apply lookup_union_Some_l, lookup_insert_eq.
  - apply lookup_union_Some_l. rewrite !lookup_insert_ne by done. apply lookup_insert_eq.
  - rewrite lookup_app_r; [| lia].
    by replace (S (length (w_heap w)) - length (w_heap w)) with 1 by lia.
  - rewrite lookup_app_r; [| lia]. by rewrite Nat.sub_diag.
  - rewrite (lookup_union_Some_l _ _ _ (SInt 0)); [done |].
    rewrite lookup_insert_ne by done. apply lookup_insert_eq.
Qed.

(** ** A step leaves the task record as it is *)

Create HintDb preserves.

Section PreservesTask.

Lemma preserves_bind {A B} (m : M A) (f : A → M B) :
  preserves_task m → (∀ a, preserves_task (f a)) → preserves_task (m ≫= f).
Proof.
  intros Hm Hf w. unfold mbind, M_bind. specialize (Hm w).
  destruct (m w) as [[a|e] w1]; simpl in *; [| done].
  by rewrite Hf.
Qed.

Lemma preserves_mret {A} (a : A) : preserves_task (mret a).
Proof. done. Qed.

Lemma preserves_lift {A} (r : Result A) : preserves_task (lift r).
Proof. done. Qed.

Lemma preserves_get_task : preserves_task get_task.
Proof. done. Qed.

Lemma preserves_store a o : preserves_task (store a o).
Proof. done. Qed.

Lemma preserves_as_memory v : preserves_task (as_memory v).
Proof.
  intros w. unfold as_memory.
  destruct v as [n|a]; [done |]. by destruct (w_heap w !! a) as [[?|?]|].
Qed.

Lemma preserves_as_sources v : preserves_task (as_sources v).
Proof.
  intros w. unfold as_sources.
  destruct v as [n|a]; [done |]. by destruct (w_heap w !! a) as [[?|?]|].
Qed.

#[local] Hint Resolve preserves_mret preserves_lift preserves_get_task preserves_store
  preserves_as_memory preserves_as_sources : preserves.

Ltac preserves :=
  repeat first
    [ progress auto with preserves
    | apply preserves_bind
    | intros []
    | intro ].

Lemma preserves_put v msg : preserves_task (put v msg).
Proof. unfold put. preserves. Qed.

Lemma preserves_get_all v : preserves_task (get_all v).
Proof. unfold get_all. preserves. Qed.

Lemma preserves_append v o : preserves_task (append v o).
Proof. unfold append. preserves. Qed.

Lemma preserves_extra_state_getitem k : preserves_task (extra_state_getitem k).
Proof. unfold extra_state_getitem. preserves. Qed.

#[local] Hint Resolve preserves_put preserves_get_all preserves_append
  preserves_extra_state_getitem : preserves.

Lemma preserves_get_all_messages self : preserves_task (get_all_messages self).
Proof. unfold get_all_messages. preserves. Qed.

Lemma preserves_call_function tools tc memory sources :
  preserves_task (_call_function tools tc memory sources).
Proof. unfold _call_function. preserves. Qed.

Lemma preserves_acall_function tools tc memory sources :
  preserves_task (_acall_function tools tc memory sources).
Proof. unfold _acall_function. preserves. Qed.

#[local] Hint Resolve preserves_get_all_messages preserves_call_function
  preserves_acall_function : preserves.

Lemma preserves_run_step self uuid4 step : preserves_task (run_step self uuid4 step).
Proof.
  unfold run_step, add_user_step_to_memory.
  apply preserves_bind; [destruct (step_input step); preserves |].
  intros _. do 5 (apply preserves_bind; [preserves | intros ?]).
  apply preserves_bind; [| preserves].
  destruct (_get_tool_call_from_response _ _); preserves.
Qed.

Lemma preserves_arun_step self uuid4 step : preserves_task (arun_step self uuid4 step).
Proof.
  unfold arun_step, add_user_step_to_memory.
  apply preserves_bind; [destruct (step_input step); preserves |].
  intros _. do 5 (apply preserves_bind; [preserves | intros ?]).
  apply preserves_bind; [| preserves].
  destruct (_get_tool_call_from_response _ _); preserves.
Qed.

End PreservesTask.

(** * The tool invoker *)

Section Invoker.

Variables (tool : BaseTool) (arguments : dict).

(** [call_tool] invokes the tool as the binding rule of the specification
    says. *)
Lemma call_tool_binding_rule :
  call_tool tool arguments =
    try_except_Exception
      (tool_call tool (binding_rule tool arguments).1 (binding_rule tool arguments).2)
      (error_output tool arguments).
Proof.
  unfold call_tool, binding_rule.
  destruct (properties (metadata tool)) as [|p [|p' ps]];
    destruct arguments as [|[k v] [|kv kvs]]; reflexivity.
Qed.

Lemma acall_tool_binding_rule :
  acall_tool tool arguments =
    try_except_Exception
      (tool_acall (adapt_to_async_tool tool)
         (binding_rule tool arguments).1 (binding_rule tool arguments).2)
      (error_output tool arguments).
Proof.
  unfold acall_tool, binding_rule.
  destruct (properties (metadata tool)) as [|p [|p' ps]];
    destruct arguments as [|[k v] [|kv kvs]]; reflexivity.
Qed.

(** An error that the invoker lets through is none that derives from
    [Exception]. *)
Lemma call_tool_raises_only_BaseException e :
  call_tool tool arguments = Raise e → is_Exception (exn_class e) = false.
Proof.
  rewrite call_tool_binding_rule. unfold try_except_Exception, error_output.
  destruct (tool_call tool _ _) as [o|e']; [done |].
  destruct (is_Exception (exn_class e')) eqn:He'; [done |]. by intros [= <-].
Qed.

(** C1, as amended.  When the invocation that [call_tool] (or
    [acall_tool]) performs raises an exception that derives from
    [Exception], the invoker returns a [ToolOutput] whose content is
    ["Encountered error: "] followed by the message of the exception and
    whose raw output is the stringified exception, and nothing is
    raised; when it raises a [KeyboardInterrupt], a [SystemExit] or a
    [CancelledError], which derive from [BaseException] only, the
    invoker raises this very exception. *)
Theorem call_tool_catches_Exception e :
  let caught :=
    Ok {| content := "Encountered error: " +:+ exn_str e;
          tool_name := name (metadata tool);
          raw_input := arguments;
          raw_output := VStr (exn_str e) |} in
  let outcome :=
    match exn_class e with
    | KeyboardInterrupt | SystemExit | CancelledError => Raise e
    | _ => caught
    end in
  (tool_call tool (binding_rule tool arguments).1 (binding_rule tool arguments).2
     = Raise e →
   call_tool tool arguments = outcome) ∧
  (tool_acall (adapt_to_async_tool tool)
     (binding_rule tool arguments).1 (binding_rule tool arguments).2 = Raise e →
   acall_tool tool arguments = outcome).
Proof.
  intros caught outcome. split; intros Hraise.
  - rewrite call_tool_binding_rule, Hraise. subst outcome caught.
    unfold try_except_Exception, error_output. by destruct (exn_class e).
  - rewrite acall_tool_binding_rule, Hraise. subst outcome caught.
    unfold try_except_Exception, error_output. by destruct (exn_class e).
Qed.

(** C4.  With exactly one declared parameter and exactly one supplied
    argument the tool is called with the value of that argument as its
    one positional argument; in every other case it is called with no
    positional argument and the whole mapping as named arguments. *)
Theorem call_tool_binds_arguments :
  (length (properties (metadata tool)) = 1 → length arguments = 1 →
   ∃ k v, arguments = [(k, v)] ∧
     call_tool tool arguments =
       try_except_Exception (tool_call tool [v] []) (error_output tool arguments)) ∧
  (¬ (length (properties (metadata tool)) = 1 ∧ length arguments = 1) →
   call_tool tool arguments =
     try_except_Exception (tool_call tool [] arguments) (error_output tool arguments)).
Proof.
  split.
  - intros Hp Ha. destruct arguments as [|[k v] [|kv kvs]]; try done.
    exists k, v. split; [done |]. unfold call_tool. by rewrite Hp.
  - intros Hn. unfold call_tool.
    destruct (length (properties (metadata tool)) =? 1) eqn:Hp; [| done].
    destruct (length arguments =? 1) eqn:Ha; [| done].
    apply Nat.eqb_eq in Hp, Ha. tauto.
Qed.

End Invoker.

(** C1 fails as it is stated: a [KeyboardInterrupt] raised by the tool
    passes through [call_tool], and the cancellation of an awaited tool
    passes through [acall_tool]. *)
Lemma call_tool_reraises_KeyboardInterrupt :
  tool_call Scenario.interrupted_tool [VStr "rocq"] [] =
    Raise (mkExn KeyboardInterrupt "") ∧
  call_tool Scenario.interrupted_tool [("query", VStr "rocq")] =
    Raise (mkExn KeyboardInterrupt "") ∧
  acall_tool Scenario.cancelled_tool [("url", VStr "rocq")] =
    Raise (mkExn CancelledError "").
Proof. repeat split. Qed.

Lemma call_tool_catches_Exception_witness :
  call_tool Scenario.failing_tool [("x", VInt 1); ("y", VInt 2)] =
    Ok {| content := "Encountered error: boom"; tool_name := "fail";
          raw_input := [("x", VInt 1); ("y", VInt 2)];
          raw_output := VStr "boom" |} ∧
  call_tool Failures.exiting_tool [("code", VInt 1)] =
    Raise (mkExn SystemExit "1") ∧
  acall_tool Failures.exiting_tool [("code", VInt 1)] =
    Raise (mkExn SystemExit "1").
Proof.
  split; [| split].
  - apply (call_tool_catches_Exception Scenario.failing_tool
             [("x", VInt 1); ("y", VInt 2)] (mkExn ValueError "boom")).
    reflexivity.
  - apply (call_tool_catches_Exception Failures.exiting_tool
             [("code", VInt 1)] (mkExn SystemExit "1")).
    reflexivity.
  - apply (call_tool_catches_Exception Failures.exiting_tool
             [("code", VInt 1)] (mkExn SystemExit "1")).
    reflexivity.
Defined.

Lemma call_tool_binds_arguments_witness :
  call_tool Scenario.shout_tool [("text", VStr "hi")] =
    Ok {| content := "hi!"; tool_name := "shout"; raw_input := [];
          raw_output := VStr "positional" |} ∧
  call_tool Scenario.add_tool [("a", VInt 2); ("b", VInt 3)] = Ok Scenario.five.
Proof.
  split.
  - destruct (call_tool_binds_arguments Scenario.shout_tool [("text", VStr "hi")])
      as [H _].
    destruct (H eq_refl eq_refl) as (k & v & [= <- <-] & ->). reflexivity.
  - destruct (call_tool_binds_arguments Scenario.add_tool
                [("a", VInt 2); ("b", VInt 3)]) as [_ H].
    rewrite H; [reflexivity |]. simpl. intros [[=] _].
Defined.

(** * Looking a tool up *)

(** C7.  When the name of the selected tool is none of the names of the
    tools, the lookup raises: [get_function_by_name] a [ValueError],
    [call_tool_with_selection] and its suspending variant a [KeyError].
    [_call_function] and [_acall_function] raise the [ValueError] and
    change nothing: no [ToolOutput] is made of it. *)
Theorem missing_tool_raises tools tc memory sources w :
  sel_tool_name tc ∉ (name ∘ metadata) <$> tools →
  let not_found :=
    mkExn ValueError ("Tool with name " +:+ sel_tool_name tc +:+ " not found") in
  get_function_by_name tools (sel_tool_name tc) = Raise not_found ∧
  call_tool_with_selection tc tools =
    Raise (mkExn KeyError (repr (sel_tool_name tc))) ∧
  acall_tool_with_selection tc tools =
    Raise (mkExn KeyError (repr (sel_tool_name tc))) ∧
  _call_function tools tc memory sources w = (Raise not_found, w) ∧
  _acall_function tools tc memory sources w = (Raise not_found, w).
Proof.
  intros Hn not_found. apply tools_by_name_None in Hn.
  assert (get_function_by_name tools (sel_tool_name tc) = Raise not_found) as Hg.
  { unfold get_function_by_name. by rewrite Hn. }
  repeat split.
  - done.
  - unfold call_tool_with_selection, getitem. by rewrite Hn.
  - unfold acall_tool_with_selection, getitem. by rewrite Hn.
  - unfold _call_function. apply bind_Raise. unfold lift. by rewrite Hg.
  - unfold _acall_function. apply bind_Raise. unfold lift. by rewrite Hg.
Qed.

Lemma missing_tool_raises_witness :
  call_tool_with_selection Scenario.select_missing [Scenario.add_tool] =
    Raise (mkExn KeyError "'multiply'") ∧
  _call_function [Scenario.add_tool] Scenario.select_missing (SRef 1) (SRef 0)
    Scenario.world1 =
    (Raise (mkExn ValueError "Tool with name multiply not found"), Scenario.world1).
Proof.
  assert (sel_tool_name Scenario.select_missing
            ∉ (name ∘ metadata) <$> [Scenario.add_tool]) as Hn.
  { simpl. intros H. apply list_elem_of_singleton in H. discriminate H. }
  destruct (missing_tool_raises [Scenario.add_tool] Scenario.select_missing
              (SRef 1) (SRef 0) Scenario.world1 Hn) as (_ & Hc & _ & Hf & _).
  split; [exact Hc | exact Hf].
Defined.

(** * Finalisation *)

(** C3.  [finalize_task] on a task whose ephemeral buffer holds [msgs]
    returns, leaves as durable memory the durable memory it found
    followed by [msgs], in this order, and leaves the ephemeral buffer
    empty. *)
Theorem finalize_task_merges w msgs :
  new_messages w = Some msgs →
  ∃ w', finalize_task w = (Ok (), w') ∧
        memory (w_task w') = memory (w_task w) ++ msgs ∧
        new_messages w' = Some [].
Proof.
  unfold new_messages.
  destruct (extra_state (w_task w) !! "new_memory") as [[n|am]|] eqn:Hk;
    simpl; try done.
  destruct (w_heap w !! am) as [[outs|msgs']|] eqn:Hm; try done.
  intros [= ->].
  assert (extra_state_getitem "new_memory" w = (Ok (SRef am), w)) as Hget.
  { unfold extra_state_getitem, get_task, lift, getitem, mbind, M_bind.
    by rewrite Hk. }
  eexists. split; [| split].
  - unfold finalize_task. mpure. mstep ltac:(idtac; exact Hget).
    mstep ltac:(idtac; unfold get_all, as_memory, mbind, M_bind;
                rewrite Hm; reflexivity).
    mpure.
    mstep ltac:(idtac; unfold extra_state_getitem, get_task, lift, getitem,
                  mbind, M_bind; simpl; rewrite Hk; reflexivity).
    unfold reset, as_memory, store, mbind, M_bind. simpl. rewrite Hm.
    reflexivity.
  - done.
  - simpl. rewrite Hk. simpl. rewrite list_lookup_insert_eq; [done |].
    by eapply lookup_lt_Some.
Qed.

(** * The context of the backend *)

(** C8.  [get_all_messages] returns the prefix messages, then the durable
    memory of the task, then its ephemeral buffer; and what a step
    returns is the answer of the backend to these messages, the buffer
    being the one that holds the input of the step. *)
Theorem context_is_prefix_memory_buffer self uuid4 step w msgs :
  new_messages w = Some msgs →
  get_all_messages self w =
    (Ok (prefix_messages self ++ memory (w_task w) ++ msgs), w) ∧
  ∀ outs out w',
    tool_outputs w = Some outs →
    run_step self uuid4 step w = (Ok out, w') →
    ∃ resp,
      chat_with_tool (_llm self) (get_tools self (input (w_task w)))
        (prefix_messages self ++ memory (w_task w) ++ msgs ++ user_messages step)
        = Ok resp ∧
      response (output out) = response_str resp.
Proof.
  intros Hm. split.
  - unfold new_messages in Hm.
    destruct (extra_state (w_task w) !! "new_memory") as [[n|am]|] eqn:Hk;
      simpl in Hm; try done.
    destruct (w_heap w !! am) as [[outs|msgs']|] eqn:Hh; try done.
    injection Hm as ->. unfold get_all_messages. mpure.
    mstep ltac:(idtac; unfold extra_state_getitem, get_task, lift, getitem,
                  mbind, M_bind; rewrite Hk; reflexivity).
    mstep ltac:(idtac; unfold get_all, as_memory, mbind, M_bind;
                rewrite Hh; reflexivity).
    done.
  - intros outs out w' Ho.
    destruct (task_state_at_intro _ _ _ Hm Ho) as (am & ao & Hw).
    rewrite (run_step_at self uuid4 step w am ao msgs outs Hw).
    unfold step_outcome.
    destruct (chat_with_tool _ _ _) as [resp|e]; [| done].
    intros Hrun. exists resp. split; [done |].
    destruct (_get_tool_call_from_response _ resp) as [tc|].
    + destruct (get_function_by_name _ _ ≫= _) as [o|e]; [| done].
      by injection Hrun as <- _.
    + by injection Hrun as <- _.
Qed.

(** * The steps *)

(** C5.  When the backend answers the first step of a task with no tool
    selection, [initialize_step] and one [run_step] return; the step is
    the last, it has no continuation, and the list of tool outputs,
    which the response refers to, is empty. *)
Theorem no_tool_call_ends_at_once self uuid0 uuid1 w0 resp :
  chat_with_tool (_llm self) (get_tools self (input (w_task w0)))
    (prefix_messages self ++ memory (w_task w0) ++
       [mkChatMessage USER (Some (input (w_task w0))) []]) = Ok resp →
  _get_tool_call_from_response (_llm self) resp = None →
  ∃ step w1 out w2,
    initialize_step uuid0 w0 = (Ok step, w1) ∧
    run_step self uuid1 step w1 = (Ok out, w2) ∧
    is_last out = true ∧
    next_steps out = [] ∧
    deref_sources (sources (output out)) w2 = Some [] ∧
    tool_outputs w2 = Some [].
Proof.
  intros Hchat Htc.
  pose proof (initialize_step_at uuid0 w0) as H.
  remember (initialize_step uuid0 w0).2 as w1 eqn:E. clear E.
  destruct H as (Hinit & Hw1 & _ & Hin & Hmem).
  eexists _, w1, _, _. split; [exact Hinit |].
  rewrite (run_step_at self uuid1 _ w1 _ _ [] [] Hw1).
  unfold step_outcome, user_messages. simpl. rewrite Hin, Hmem, Hchat, Htc.
  split; [reflexivity |]. repeat split.
  - pose proof (task_state_at_set_memory _ _ _ _ _ Hw1
                  [mkChatMessage USER (Some (input (w_task w0))) []; message resp])
      as (_ & _ & _ & Ho).
    unfold deref_sources. simpl in *. by rewrite Ho.
  - eapply tool_outputs_at, task_state_at_set_memory, Hw1.
Qed.

(** C2, as amended.  A step for which the backend selects a tool of the
    catalogue returns and is not the last; it appends to the ephemeral
    buffer the user message if the step has input, then the message of
    the backend, then one tool-role message, and it appends one
    [ToolOutput] to the list of tool outputs.  The buffer grows by two
    messages when the step has no input and by three when it has. *)
Theorem tool_step_appends self uuid4 step w msgs outs resp tc o :
  new_messages w = Some msgs →
  tool_outputs w = Some outs →
  chat_with_tool (_llm self) (get_tools self (input (w_task w)))
    (prefix_messages self ++ memory (w_task w) ++ msgs ++ user_messages step)
    = Ok resp →
  _get_tool_call_from_response (_llm self) resp = Some tc →
  call_tool_with_selection tc (get_tools self (input (w_task w))) = Ok o →
  ∃ out w',
    run_step self uuid4 step w = (Ok out, w') ∧
    is_last out = false ∧
    next_steps out = [get_next_step step uuid4 None] ∧
    new_messages w' =
      Some (msgs ++ user_messages step ++ [message resp; tool_message tc o]) ∧
    role (tool_message tc o) = TOOL ∧
    tool_outputs w' = Some (outs ++ [o]) ∧
    length (msgs ++ user_messages step ++ [message resp; tool_message tc o]) =
      length msgs + match step_input step with Some _ => 3 | None => 2 end.
Proof.
  intros Hm Ho Hchat Htc Hcall.
  destruct (task_state_at_intro _ _ _ Hm Ho) as (am & ao & Hw).
  rewrite (run_step_at self uuid4 step w am ao msgs outs Hw).
  unfold step_outcome. rewrite Hchat, Htc.
  assert (get_function_by_name (get_tools self (input (w_task w))) (sel_tool_name tc)
            ≫= (λ _, call_tool_with_selection tc (get_tools self (input (w_task w))))
          = Ok o) as ->.
  { unfold get_function_by_name. unfold call_tool_with_selection, getitem in Hcall.
    destruct (tools_by_name _ !! sel_tool_name tc) as [t|] eqn:Ht; [| done].
    unfold getitem. rewrite Ht. simpl. unfold call_tool_with_selection, getitem.
    by rewrite Ht. }
  eexists _, _. split; [reflexivity |]. repeat split.
  - rewrite (assoc_L (++)).
    eapply new_messages_at, task_state_at_set_memory, task_state_at_set_sources, Hw.
  - eapply tool_outputs_at, task_state_at_set_memory, task_state_at_set_sources, Hw.
  - rewrite !length_app. unfold user_messages.
    destruct (step_input step); simpl; lia.
Qed.

(** C2 fails as it is stated: the first step of a task has the input of
    the task, and when the backend selects a tool on it the buffer grows
    by three messages, the user message being the first. *)
Lemma first_step_appends_three_messages :
  initialize_step "s1" Scenario.world0 = (Ok Scenario.step1, Scenario.world1) ∧
  new_messages Scenario.world1 = Some [] ∧
  run_step Scenario.adder "s2" Scenario.step1 Scenario.world1 =
    (Ok Scenario.out1, Scenario.world2) ∧
  is_last Scenario.out1 = false ∧
  new_messages Scenario.world2 =
    Some [Scenario.user_message; message Scenario.wants_add;
          Scenario.five_message] ∧
  length <$> new_messages Scenario.world2 = Some 3.
Proof. repeat split; vm_compute; reflexivity. Qed.

Lemma tool_step_appends_witness :
  ∃ out w',
    run_step Scenario.caller "s3" Scenario.step2 Scenario.world1 = (Ok out, w') ∧
    is_last out = false ∧
    next_steps out = [get_next_step Scenario.step2 "s3" None] ∧
    new_messages w' =
      Some ([] ++ user_messages Scenario.step2 ++
            [message Scenario.wants_add;
             tool_message Scenario.select_add Scenario.five]) ∧
    role (tool_message Scenario.select_add Scenario.five) = TOOL ∧
    tool_outputs w' = Some ([] ++ [Scenario.five]) ∧
    length ([] ++ user_messages Scenario.step2 ++
            [message Scenario.wants_add;
             tool_message Scenario.select_add Scenario.five]) = 0 + 2.
Proof.
  apply (tool_step_appends Scenario.caller "s3" Scenario.step2 Scenario.world1
           [] [] Scenario.wants_add Scenario.select_add Scenario.five);
    vm_compute; reflexivity.
Defined.

Lemma finalize_task_merges_witness :
  ∃ w', finalize_task Scenario.world2 = (Ok (), w') ∧
        memory (w_task w') =
          memory (w_task Scenario.world2) ++
            [Scenario.user_message; message Scenario.wants_add;
             Scenario.five_message] ∧
        new_messages w' = Some [].
Proof.
  apply (finalize_task_merges Scenario.world2
           [Scenario.user_message; message Scenario.wants_add;
            Scenario.five_message]).
  vm_compute. reflexivity.
Defined.

Lemma context_is_prefix_memory_buffer_witness :
  get_all_messages Scenario.adder Scenario.world2 =
    (Ok (prefix_messages Scenario.adder ++ memory (w_task Scenario.world2) ++
           [Scenario.user_message; message Scenario.wants_add;
            Scenario.five_message]),
     Scenario.world2).
Proof.
  apply (context_is_prefix_memory_buffer Scenario.adder "s3" Scenario.step2
           Scenario.world2
           [Scenario.user_message; message Scenario.wants_add;
            Scenario.five_message]).
  vm_compute. reflexivity.
Defined.

Lemma no_tool_call_ends_at_once_witness :
  ∃ step w1 out w2,
    initialize_step "s1" Scenario.world0 = (Ok step, w1) ∧
    run_step Scenario.answerer "s2" step w1 = (Ok out, w2) ∧
    is_last out = true ∧
    next_steps out = [] ∧
    deref_sources (sources (output out)) w2 = Some [] ∧
    tool_outputs w2 = Some [].
Proof.
  apply (no_tool_call_ends_at_once Scenario.answerer "s1" "s2" Scenario.world0
           Scenario.says_seven); reflexivity.
Defined.

(** * The call counter *)

(** C6 fails as it is stated: after the first step of [adder], which
    calls one tool, the counter is what it was, zero. *)
Lemma n_function_calls_stays_zero :
  run_step Scenario.adder "s2" Scenario.step1 Scenario.world1 =
    (Ok Scenario.out1, Scenario.world2) ∧
  tool_outputs Scenario.world1 = Some [] ∧
  tool_outputs Scenario.world2 = Some [Scenario.five] ∧
  n_function_calls Scenario.world1 = Some 0%Z ∧
  n_function_calls Scenario.world2 = Some 0%Z.
Proof. repeat split; vm_compute; reflexivity. Qed.

(** C6, as amended.  [initialize_step] sets the call counter of the task
    to zero, and no step, blocking or suspending, changes it, whether it
    calls a tool or not. *)
Theorem n_function_calls_unchanged self uuid4 step w :
  n_function_calls (initialize_step uuid4 w).2 = Some 0%Z ∧
  n_function_calls (run_step self uuid4 step w).2 = n_function_calls w ∧
  n_function_calls (arun_step self uuid4 step w).2 = n_function_calls w.
Proof.
  split; [apply initialize_step_at |]. unfold n_function_calls.
  by rewrite preserves_run_step, preserves_arun_step.
Qed.

(** * The blocking and the suspending step *)

Lemma bind_ext_l {A B} (m m' : M A) (f : A → M B) w :
  m w = m' w → (m ≫= f) w = (m' ≫= f) w.
Proof. intros H. unfold mbind, M_bind. by rewrite H. Qed.

Lemma adapt_to_async_tool_idemp t :
  adapt_to_async_tool (adapt_to_async_tool t) = adapt_to_async_tool t.
Proof. by destruct t. Qed.

Lemma tool_call_adapt t : tool_call (adapt_to_async_tool t) = tool_call t.
Proof. by destruct t. Qed.

Section Agreement.

(** The suspending invocation of every tool of [tools], once adapted,
    does what its blocking invocation does. *)
Variable tools : list BaseTool.
Hypothesis Htools : ∀ t, t ∈ tools →
  ∀ args kwargs, tool_acall (adapt_to_async_tool t) args kwargs = tool_call t args kwargs.

Lemma acall_tool_agrees t arguments :
  t ∈ tools → acall_tool t arguments = call_tool t arguments.
Proof.
  intros Ht. rewrite acall_tool_binding_rule, call_tool_binding_rule.
  by rewrite Htools.
Qed.

Lemma acall_tool_with_selection_agrees tc :
  acall_tool_with_selection tc tools = call_tool_with_selection tc tools.
Proof.
  unfold acall_tool_with_selection, call_tool_with_selection, getitem.
  destruct (tools_by_name tools !! sel_tool_name tc) as [t|] eqn:Ht; [| done].
  simpl. apply acall_tool_agrees. by apply tools_by_name_Some in Ht as [Ht _].
Qed.

Lemma acall_function_agrees tc memory sources w :
  _acall_function tools tc memory sources w = _call_function tools tc memory sources w.
Proof.
  unfold _acall_function, _call_function.
  by rewrite acall_tool_with_selection_agrees.
Qed.

End Agreement.

(** C9.  When the suspending call of the backend answers as its blocking
    call does, and the suspending invocation of every tool of the worker
    does what its blocking invocation does, [arun_step] returns or
    raises what [run_step] does and leaves the same world: the same
    ephemeral buffer and the same list of tool outputs.  The identifier
    of the continuation step is the same when [uuid.uuid4()] yields the
    same in both. *)
Theorem arun_step_agrees_with_run_step self uuid4 step w :
  (∀ tools history,
     achat_with_tool (_llm self) tools history =
     chat_with_tool (_llm self) tools history) →
  (∀ input t, t ∈ _get_tools self input →
     ∀ args kwargs,
       tool_acall (adapt_to_async_tool t) args kwargs = tool_call t args kwargs) →
  arun_step self uuid4 step w = run_step self uuid4 step w.
Proof.
  intros Hllm Htools. unfold arun_step, run_step.
  apply bind_ext. intros _ w1. apply bind_ext. intros task w2.
  apply bind_ext. intros history w3. rewrite Hllm.
  apply bind_ext. intros resp w4. apply bind_ext. intros new_memory w5.
  apply bind_ext. intros _ w6. apply bind_ext_l.
  destruct (_get_tool_call_from_response (_llm self) resp) as [tc|]; [| done].
  apply bind_ext. intros memory w7. apply bind_ext. intros sources w8.
  apply bind_ext_l. apply acall_function_agrees.
  intros t' Ht' args kwargs. unfold get_tools in Ht'.
  apply list_elem_of_fmap in Ht' as (t & -> & Ht).
  by rewrite adapt_to_async_tool_idemp, tool_call_adapt, (Htools _ _ Ht).
Qed.

Lemma arun_step_agrees_with_run_step_witness :
  arun_step Scenario.adder "s2" Scenario.step1 Scenario.world1 =
  run_step Scenario.adder "s2" Scenario.step1 Scenario.world1.
Proof.
  apply (arun_step_agrees_with_run_step Scenario.adder "s2" Scenario.step1
           Scenario.world1).
  - intros tools history. reflexivity.
  - intros input t Ht args kwargs. simpl in Ht.
    apply list_elem_of_singleton in Ht. rewrite Ht. reflexivity.
Defined.

(** * The response of a step *)

(** C10.  The response that a step returns, blocking or suspending, last
    or not, refers to the very list that the task state holds under
    ["sources"]; after the step this list holds the outputs collected
    before the step followed by those of the step: none when the step is
    the last, one when it is not. *)
Theorem response_sources_is_task_sources self uuid4 step w msgs outs out w' :
  new_messages w = Some msgs →
  tool_outputs w = Some outs →
  run_step self uuid4 step w = (Ok out, w') ∨
    arun_step self uuid4 step w = (Ok out, w') →
  extra_state (w_task w') !! "sources" = Some (sources (output out)) ∧
  ∃ new,
    deref_sources (sources (output out)) w' = Some (outs ++ new) ∧
    tool_outputs w' = Some (outs ++ new) ∧
    length new = if is_last out then 0 else 1.
Proof.
  intros Hm Ho Hrun.
  destruct (task_state_at_intro _ _ _ Hm Ho) as (am & ao & Hw).
  rewrite (run_step_at self uuid4 step w am ao msgs outs Hw) in Hrun.
  rewrite (arun_step_at self uuid4 step w am ao msgs outs Hw) in Hrun.
  assert (∀ answer invoke,
    step_outcome uuid4 step w am ao (msgs ++ user_messages step) outs
      (_get_tool_call_from_response (_llm self)) answer invoke = (Ok out, w') →
    ∃ new msgs', sources (output out) = SRef ao ∧
      task_state_at w' am ao msgs' (outs ++ new) ∧
      length new = if is_last out then 0 else 1) as Hcases.
  { intros answer invoke. unfold step_outcome.
    destruct answer as [resp|e]; [| done].
    destruct (_get_tool_call_from_response (_llm self) resp) as [tc|].
    - destruct (invoke tc) as [o|e]; [| done]. intros [= <- <-].
      exists [o]; eexists. split; [done |]. split; [| done].
      eapply task_state_at_set_memory, task_state_at_set_sources, Hw.
    - intros [= <- <-]. exists []; eexists. rewrite app_nil_r.
      split; [done |]. split; [| done].
      eapply task_state_at_set_memory, Hw. }
  assert (∃ new msgs', sources (output out) = SRef ao ∧
            task_state_at w' am ao msgs' (outs ++ new) ∧
            length new = if is_last out then 0 else 1)
    as (new & msgs' & Hsrc & Hw' & Hlen).
  { destruct Hrun as [Hrun | Hrun]; eapply Hcases, Hrun. }
  rewrite Hsrc. split; [apply Hw' |]. exists new. repeat split.
  - destruct Hw' as (_ & _ & _ & Hao). unfold deref_sources. by rewrite Hao.
  - by eapply tool_outputs_at.
  - done.
Qed.

Lemma response_sources_is_task_sources_witness :
  extra_state (w_task Scenario.world2) !! "sources" =
    Some (sources (output Scenario.out1)) ∧
  ∃ new,
    deref_sources (sources (output Scenario.out1)) Scenario.world2 = Some ([] ++ new) ∧
    tool_outputs Scenario.world2 = Some ([] ++ new) ∧
    length new = if is_last Scenario.out1 then 0 else 1.
Proof.
  apply (response_sources_is_task_sources Scenario.adder "s2" Scenario.step1
           Scenario.world1 [] [] Scenario.out1 Scenario.world2).
  - vm_compute. reflexivity.
  - vm_compute. reflexivity.
  - left. vm_compute. reflexivity.
Defined.

(** * Further lemmas *)

Lemma new_messages_inv w msgs :
  new_messages w = Some msgs →
  ∃ am, extra_state (w_task w) !! "new_memory" = Some (SRef am) ∧
        w_heap w !! am = Some (OMemory msgs).
Proof.
  unfold new_messages.
  destruct (extra_state (w_task w) !! "new_memory") as [[n|am]|]; simpl; try done.
  destruct (w_heap w !! am) as [[outs|msgs']|] eqn:Hh; try done.
  intros [= ->]. by exists am.
Qed.

Lemma extra_state_getitem_Some k v w :
  extra_state (w_task w) !! k = Some v → extra_state_getitem k w = (Ok v, w).
Proof.
  intros Hk. unfold extra_state_getitem, get_task, lift, getitem, mbind, M_bind.
  by rewrite Hk.
Qed.

Lemma extra_state_getitem_None k w :
  extra_state (w_task w) !! k = None →
  extra_state_getitem k w = (Raise (mkExn KeyError (repr k)), w).
Proof.
  intros Hk. unfold extra_state_getitem, get_task, lift, getitem, mbind, M_bind.
  by rewrite Hk.
Qed.

Lemma get_all_messages_of_buffer self w msgs :
  new_messages w = Some msgs →
  get_all_messages self w =
    (Ok (prefix_messages self ++ memory (w_task w) ++ msgs), w).
Proof.
  intros (am & Hk & Hh)%new_messages_inv. unfold get_all_messages. mpure.
  mstep ltac:(idtac; by apply extra_state_getitem_Some).
  mstep ltac:(idtac; unfold get_all, as_memory, mbind, M_bind;
              rewrite Hh; reflexivity).
  done.
Qed.

Lemma init_Ok_inv tools llm prefix verbose max_function_calls tool_retriever self :
  init tools llm prefix verbose max_function_calls tool_retriever = Ok self →
  is_function_calling_model llm = true ∧
  (tools = [] ∨ tool_retriever = None) ∧
  _llm self = llm ∧
  prefix_messages self = prefix ∧
  _max_function_calls self = max_function_calls ∧
  ∀ input, _get_tools self input =
             match tool_retriever with
             | Some retrieve => retrieve input
             | None => tools
             end.
Proof.
  unfold init. destruct (is_function_calling_model llm); [| done]. simpl.
  destruct (0 <? length tools) eqn:Hl; destruct tool_retriever as [r|];
    simpl; try done; intros [= <-]; simpl.
  - repeat split; auto.
  - destruct tools; [| done]. repeat split; auto.
  - destruct tools; [| done]. repeat split; auto.
Qed.

Lemma acall_tool_raises_only_BaseException tool arguments e :
  acall_tool tool arguments = Raise e → is_Exception (exn_class e) = false.
Proof.
  rewrite acall_tool_binding_rule. unfold try_except_Exception, error_output.
  destruct (tool_acall _ _ _) as [o|e']; [done |].
  destruct (is_Exception (exn_class e')) eqn:He'; [done |]. by intros [= <-].
Qed.

(** * Further properties: building a worker *)

Section Building.

Variables (tools : list BaseTool) (llm : LLM) (prefix : list ChatMessage).
Variables (verbose : bool) (max_function_calls : Z).
Variable tool_retriever : option (string → list BaseTool).

Lemma ltb_length_nil {A} (l : list A) : (0 <? length l) = false ↔ l = [].
Proof. destruct l; simpl; split; try done. Qed.

(** X1.  [__init__] raises a [ValueError] for a model without function
    calling, whatever the tools are, the list may be empty; for a model
    with it, it raises when a non-empty tool list and a retriever are both
    given; in every other case it returns a worker. *)
Theorem init_raises_or_returns :
  (is_function_calling_model llm = false →
   init tools llm prefix verbose max_function_calls tool_retriever =
     Raise (mkExn ValueError
       ("Model name " +:+ model llm +:+ " does not support function calling API. "))) ∧
  (is_function_calling_model llm = true → tools ≠ [] → is_Some tool_retriever →
   init tools llm prefix verbose max_function_calls tool_retriever =
     Raise (mkExn ValueError "Cannot specify both tools and tool_retriever")) ∧
  (is_function_calling_model llm = true → tools = [] ∨ tool_retriever = None →
   ∃ self, init tools llm prefix verbose max_function_calls tool_retriever = Ok self).
Proof.
  unfold init. repeat split.
  - by intros ->.
  - intros -> Hne [r ->]. simpl.
    destruct (0 <? length tools) eqn:Hl; [done |].
    by apply ltb_length_nil in Hl.
  - intros -> [-> | ->]; simpl.
    + destruct tool_retriever; eauto.
    + destruct (0 <? length tools); eauto.
Qed.

(** X2.  The catalogue of a worker that [__init__] returned: with a
    retriever, the tools retrieved for the input; without, the tool list
    given, the same for every input; each tool adapted, in the order
    given.  The prefix messages and the backend are those given. *)
Theorem init_catalogue self :
  init tools llm prefix verbose max_function_calls tool_retriever = Ok self →
  (∀ input,
     get_tools self input =
       adapt_to_async_tool <$>
         match tool_retriever with
         | Some retrieve => retrieve input
         | None => tools
         end) ∧
  prefix_messages self = prefix ∧
  _llm self = llm.
Proof.
  intros (_ & _ & Hllm & Hprefix & _ & Htools)%init_Ok_inv.
  repeat split; [| done | done]. intros input. unfold get_tools.
  by rewrite Htools.
Qed.

End Building.

Lemma init_raises_or_returns_witness :
  init [Scenario.add_tool] Failures.plain_llm [] false 5 None =
    Raise (mkExn ValueError
      "Model name plain does not support function calling API. ") ∧
  init [] Failures.plain_llm [] false 5 None =
    Raise (mkExn ValueError
      "Model name plain does not support function calling API. ") ∧
  init [Scenario.add_tool] Scenario.direct_llm [] false 5
    (Some (λ _, [Scenario.shout_tool])) =
    Raise (mkExn ValueError "Cannot specify both tools and tool_retriever") ∧
  ∃ self, init [] Scenario.direct_llm [] false 5
            (Some (λ _, [Scenario.shout_tool])) = Ok self.
Proof.
  split; [| split; [| split]].
  - apply (init_raises_or_returns [Scenario.add_tool] Failures.plain_llm). reflexivity.
  - apply (init_raises_or_returns [] Failures.plain_llm). reflexivity.
  - apply (init_raises_or_returns [Scenario.add_tool] Scenario.direct_llm);
      [reflexivity | done | by eexists].
  - apply (init_raises_or_returns [] Scenario.direct_llm);
      [reflexivity | by left].
Defined.

Lemma init_catalogue_witness :
  get_tools (Failures.worker_of Scenario.direct_llm [Scenario.add_tool])
    "What is 2 + 3?" =
    adapt_to_async_tool <$> [Scenario.add_tool].
Proof.
  apply (init_catalogue [Scenario.add_tool] Scenario.direct_llm
           [Scenario.system_message] false 1 None
           (Failures.worker_of Scenario.direct_llm [Scenario.add_tool])).
  reflexivity.
Defined.

Section FromTools.

Variable settings_llm : LLM.
Variables (tools : option (list BaseTool)) (llm : option LLM).
Variable tool_retriever : option (string → list BaseTool).
Variables (verbose : bool) (max_function_calls : Z).

(** X3.  [from_tools] raises exactly when a system prompt and prefix
    messages are both given (an empty list of prefix messages is given
    too), or the model, the default one when none is given, has no
    function calling, or tools and a retriever are both given. *)
Theorem from_tools_raises_iff system_prompt prefix_messages :
  (∃ e, from_tools settings_llm tools tool_retriever llm verbose
          max_function_calls system_prompt prefix_messages = Raise e) ↔
  (is_Some system_prompt ∧ is_Some prefix_messages) ∨
  is_function_calling_model (default settings_llm llm) = false ∨
  (default [] tools ≠ [] ∧ is_Some tool_retriever).
Proof.
  unfold from_tools, init.
  destruct system_prompt as [sp|], prefix_messages as [pm|]; simpl.
  1: { split; [intros _; left; split; by eexists | intros _; by eexists]. }
  all: destruct (is_function_calling_model (default settings_llm llm)); simpl.
  all: try (split; [intros _; right; by left | intros _; by eexists]).
  all: destruct (0 <? length (default [] tools)) eqn:Hl;
       destruct tool_retriever as [r|]; simpl.
  all: try apply ltb_length_nil in Hl.
  all: split; [intros [e He] | intros [[[? ?] [? ?]] | [? | [Hne [? ?]]]]];
       try done.
  all: try (right; right; split; [| by eexists]; intros Hnil;
            by rewrite Hnil in Hl).
  all: try by eexists.
Qed.

(** X4.  A worker that [from_tools] made of a system prompt shows every
    backend the prompt first: the context of a step is the system
    message, then the durable memory, then the ephemeral buffer.  Made
    of neither a prompt nor prefix messages, it shows no prefix. *)
Theorem from_tools_system_prompt system_prompt self w msgs :
  from_tools settings_llm tools tool_retriever llm verbose max_function_calls
    system_prompt None = Ok self →
  new_messages w = Some msgs →
  get_all_messages self w =
    (Ok (match system_prompt with
         | Some s => [mkChatMessage SYSTEM (Some s) []]
         | None => []
         end ++ memory (w_task w) ++ msgs), w).
Proof.
  intros Hfrom Hm.
  assert (prefix_messages self =
            match system_prompt with
            | Some s => [mkChatMessage SYSTEM (Some s) []]
            | None => []
            end) as <-.
  { unfold from_tools in Hfrom.
    destruct system_prompt; simpl in Hfrom;
      by apply init_Ok_inv in Hfrom as (_ & _ & _ & -> & _). }
  by apply get_all_messages_of_buffer.
Qed.

End FromTools.

Lemma from_tools_raises_iff_witness :
  ∃ e, from_tools Scenario.direct_llm (Some [Scenario.add_tool]) None None false 5
         (Some "You add numbers.") (Some []) = Raise e.
Proof.
  apply (from_tools_raises_iff Scenario.direct_llm (Some [Scenario.add_tool]) None
           None false 5 (Some "You add numbers.") (Some [])).
  left. split; by eexists.
Defined.

Lemma from_tools_system_prompt_witness :
  get_all_messages Scenario.answerer Scenario.world1 =
    (Ok ([mkChatMessage SYSTEM (Some "You add numbers.") []] ++
         memory (w_task Scenario.world1) ++ []), Scenario.world1).
Proof.
  apply (from_tools_system_prompt Scenario.direct_llm (Some [Scenario.add_tool]) None
           None false 5 (Some "You add numbers.") Scenario.answerer Scenario.world1 []).
  - reflexivity.
  - vm_compute. reflexivity.
Defined.

(** * Further properties: looking a tool up and calling it *)

Lemma foldl_insert_last (tools : list BaseTool) (acc : gmap string BaseTool) t :
  name (metadata t) ∉ (name ∘ metadata) <$> tools →
  acc !! name (metadata t) = Some t →
  foldl (λ m tool, <[name (metadata tool) := tool]> m) acc tools
    !! name (metadata t) = Some t.
Proof.
  revert acc. induction tools as [|t' tools IH]; intros acc Hn Hacc; [done |].
  simpl in *. apply not_elem_of_cons in Hn as [Hne Hn].
  apply IH; [done |]. by rewrite lookup_insert_ne.
Qed.

Lemma tools_by_name_last l1 t l2 :
  name (metadata t) ∉ (name ∘ metadata) <$> l2 →
  tools_by_name (l1 ++ t :: l2) !! name (metadata t) = Some t.
Proof.
  intros Hn. unfold tools_by_name. rewrite foldl_app. simpl.
  apply foldl_insert_last; [done |]. apply lookup_insert_eq.
Qed.

Lemma get_function_by_name_Ok tools n t :
  get_function_by_name tools n = Ok t ↔ tools_by_name tools !! n = Some t.
Proof.
  unfold get_function_by_name, getitem.
  destruct (tools_by_name tools !! n) as [t'|]; [| done].
  split; by intros [= ->].
Qed.

Section Lookup.

Variables (tools : list BaseTool).

(** X5.  [get_function_by_name] returns a tool exactly when a tool of the
    list has the name; the tool it returns is one of the list and has
    the name. *)
Theorem get_function_by_name_returns n :
  ((∃ t, get_function_by_name tools n = Ok t) ↔
   n ∈ (name ∘ metadata) <$> tools) ∧
  ∀ t, get_function_by_name tools n = Ok t →
       t ∈ tools ∧ name (metadata t) = n.
Proof.
  split.
  - split.
    + intros [t Ht%get_function_by_name_Ok]. apply dec_stable. intros Hn.
      apply tools_by_name_None in Hn. congruence.
    + intros Hin. destruct (tools_by_name tools !! n) as [t|] eqn:Ht.
      * exists t. by apply get_function_by_name_Ok.
      * by apply tools_by_name_None in Ht.
  - intros t Ht%get_function_by_name_Ok. by apply tools_by_name_Some.
Qed.


End Lookup.

(** X6.  Of several tools of one name the last one of the list is the
    one that [get_function_by_name] returns and the one that
    [call_tool_with_selection] and its suspending variant call. *)
Theorem last_tool_of_a_name_wins l1 t l2 tc :
  name (metadata t) ∉ (name ∘ metadata) <$> l2 →
  sel_tool_name tc = name (metadata t) →
  get_function_by_name (l1 ++ t :: l2) (sel_tool_name tc) = Ok t ∧
  call_tool_with_selection tc (l1 ++ t :: l2) = call_tool t (tool_kwargs tc) ∧
  acall_tool_with_selection tc (l1 ++ t :: l2) = acall_tool t (tool_kwargs tc).
Proof.
  intros Hn Htc. pose proof (tools_by_name_last l1 t l2 Hn) as Hlast.
  rewrite <- Htc in Hlast. repeat split.
  - by apply get_function_by_name_Ok.
  - unfold call_tool_with_selection, getitem. by rewrite Hlast.
  - unfold acall_tool_with_selection, getitem. by rewrite Hlast.
Qed.

(** X8.  [call_tool] and [acall_tool] raise no error that derives from
    [Exception]: what they raise derives from [BaseException] only. *)
Theorem invoker_raises_no_Exception tool arguments e :
  call_tool tool arguments = Raise e ∨ acall_tool tool arguments = Raise e →
  is_Exception (exn_class e) = false.
Proof.
  intros [H | H].
  - by eapply call_tool_raises_only_BaseException.
  - by eapply acall_tool_raises_only_BaseException.
Qed.

Lemma get_function_by_name_returns_witness :
  Scenario.add_tool ∈ [Scenario.shout_tool; Scenario.add_tool] ∧
  name (metadata Scenario.add_tool) = "add".
Proof.
  apply (get_function_by_name_returns [Scenario.shout_tool; Scenario.add_tool] "add").
  reflexivity.
Defined.


Lemma last_tool_of_a_name_wins_witness :
  get_function_by_name ([Failures.quiet_tool] ++ Scenario.shout_tool :: [Scenario.add_tool])
    "shout" = Ok Scenario.shout_tool ∧
  call_tool_with_selection Failures.select_shout
    ([Failures.quiet_tool] ++ Scenario.shout_tool :: [Scenario.add_tool]) =
    call_tool Scenario.shout_tool [("text", VStr "hi")] ∧
  acall_tool_with_selection Failures.select_shout
    ([Failures.quiet_tool] ++ Scenario.shout_tool :: [Scenario.add_tool]) =
    acall_tool Scenario.shout_tool [("text", VStr "hi")].
Proof.
  apply (last_tool_of_a_name_wins [Failures.quiet_tool] Scenario.shout_tool
           [Scenario.add_tool] Failures.select_shout); [| reflexivity].
  simpl. intros H. apply list_elem_of_singleton in H. discriminate H.
Defined.

Lemma invoker_raises_no_Exception_witness :
  is_Exception (exn_class (mkExn KeyboardInterrupt "")) = false.
Proof.
  apply (invoker_raises_no_Exception Scenario.interrupted_tool
           [("query", VStr "rocq")] (mkExn KeyboardInterrupt "")).
  left. reflexivity.
Defined.

(** * Further properties: what a step leaves behind *)

Lemma step_outcome_shape uuid4 step w am ao msgs msgs1 outs gtc answer invoke r w' :
  task_state_at w am ao msgs outs →
  step_outcome uuid4 step w am ao msgs1 outs gtc answer invoke = (r, w') →
  w_task w' = w_task w ∧
  ∃ added new,
    task_state_at w' am ao (msgs1 ++ added) (outs ++ new) ∧
    match r with
    | Ok out =>
        sources (output out) = SRef ao ∧
        task_step out = step ∧
        length new = (if is_last out then 0 else 1) ∧
        next_steps out =
          (if is_last out then [] else [get_next_step step uuid4 None])
    | Raise _ =>
        new = [] ∧ (added = [] ∨ ∃ resp, answer = Ok resp ∧ added = [message resp])
    end.
Proof.
  intros Hw. unfold step_outcome. destruct answer as [resp|e].
  - destruct (gtc resp) as [tc|].
    + destruct (invoke tc) as [o|e]; intros [= <- <-]; (split; [done |]).
      * exists [message resp; tool_message tc o], [o]. split; [| done].
        eapply task_state_at_set_memory, task_state_at_set_sources, Hw.
      * exists [message resp], []. rewrite app_nil_r. split; [| eauto].
        eapply task_state_at_set_memory, Hw.
    + intros [= <- <-]. split; [done |].
      exists [message resp], []. rewrite app_nil_r. split; [| done].
      eapply task_state_at_set_memory, Hw.
  - intros [= <- <-]. split; [done |]. exists [], []. rewrite !app_nil_r.
    split; [| auto]. eapply task_state_at_set_memory, Hw.
Qed.

Lemma step_outcome_raises uuid4 step w am ao msgs msgs1 outs gtc answer invoke e w' :
  task_state_at w am ao msgs outs →
  step_outcome uuid4 step w am ao msgs1 outs gtc answer invoke = (Raise e, w') →
  tool_outputs w' = Some outs ∧
  w_task w' = w_task w ∧
  match answer with
  | Raise e' => e = e' ∧ new_messages w' = Some msgs1
  | Ok resp => new_messages w' = Some (msgs1 ++ [message resp])
  end.
Proof.
  intros Hw. unfold step_outcome. destruct answer as [resp|e'].
  - pose proof (task_state_at_set_memory _ _ _ _ _ Hw (msgs1 ++ [message resp]))
      as Hw'.
    destruct (gtc resp) as [tc|]; [destruct (invoke tc) as [o|e'']|]; try done.
    intros [= <- <-].
    split; [by eapply tool_outputs_at |]. split; [done |].
    by eapply new_messages_at.
  - pose proof (task_state_at_set_memory _ _ _ _ _ Hw msgs1) as Hw'.
    intros [= <- <-].
    split; [by eapply tool_outputs_at |]. split; [done |]. split; [done |].
    by eapply new_messages_at.
Qed.

Section AfterAStep.

Variable self : FunctionCallingAgentWorker.
Variables (uuid4 : string) (step : TaskStep) (w : World).
Variables (msgs : list ChatMessage) (outs : list ToolOutput).
Hypothesis Hm : new_messages w = Some msgs.
Hypothesis Ho : tool_outputs w = Some outs.

(** X9.  A step that raises, blocking or suspending, records no tool
    output: the list of outputs and the task record are what they were.
    The ephemeral buffer keeps what the step appended before it raised.
    When the backend had answered, this is the user message of a step
    with input followed by the message of that answer; when the backend
    raised, the error of the step is the error of the backend and the
    buffer keeps the user message of a step with input, nothing else. *)
Theorem raising_step_records_no_output e w' :
  let tools := get_tools self (input (w_task w)) in
  let context :=
    prefix_messages self ++ memory (w_task w) ++ msgs ++ user_messages step in
  let kept (answer : Result ChatResponse) :=
    match answer with
    | Raise e' =>
        e = e' ∧ new_messages w' = Some (msgs ++ user_messages step)
    | Ok resp =>
        new_messages w' = Some (msgs ++ user_messages step ++ [message resp])
    end in
  (run_step self uuid4 step w = (Raise e, w') →
   tool_outputs w' = Some outs ∧
   w_task w' = w_task w ∧
   kept (chat_with_tool (_llm self) tools context)) ∧
  (arun_step self uuid4 step w = (Raise e, w') →
   tool_outputs w' = Some outs ∧
   w_task w' = w_task w ∧
   kept (achat_with_tool (_llm self) tools context)).
Proof.
  intros tools context kept.
  destruct (task_state_at_intro _ _ _ Hm Ho) as (am & ao & Hw).
  rewrite (run_step_at self uuid4 step w am ao msgs outs Hw).
  rewrite (arun_step_at self uuid4 step w am ao msgs outs Hw).
  fold tools context. subst kept.
  split; intros Hrun;
    apply (step_outcome_raises _ _ _ _ _ _ _ _ _ _ _ _ _ Hw) in Hrun
      as (Houts & Htask & Hkept);
    (split; [done |]); (split; [done |]).
  - destruct (chat_with_tool (_llm self) tools context); [| done].
    by rewrite (assoc_L (++)).
  - destruct (achat_with_tool (_llm self) tools context); [| done].
    by rewrite (assoc_L (++)).
Qed.

(** X10.  When the backend cannot answer, the step raises the error of
    the backend; a step with input has by then recorded its user
    message in the ephemeral buffer, and nothing else is recorded. *)
Theorem backend_error_keeps_user_message e :
  chat_with_tool (_llm self) (get_tools self (input (w_task w)))
    (prefix_messages self ++ memory (w_task w) ++ msgs ++ user_messages step)
    = Raise e →
  ∃ w', run_step self uuid4 step w = (Raise e, w') ∧
        new_messages w' = Some (msgs ++ user_messages step) ∧
        tool_outputs w' = Some outs.
Proof.
  intros Hchat. destruct (task_state_at_intro _ _ _ Hm Ho) as (am & ao & Hw).
  rewrite (run_step_at self uuid4 step w am ao msgs outs Hw).
  unfold step_outcome. rewrite Hchat. eexists. split; [done |].
  pose proof (task_state_at_set_memory _ _ _ _ _ Hw (msgs ++ user_messages step)) as Hw'.
  split; [by eapply new_messages_at | by eapply tool_outputs_at].
Qed.

Section BackendAnswers.

Variable resp : ChatResponse.
Hypothesis Hchat :
  chat_with_tool (_llm self) (get_tools self (input (w_task w)))
    (prefix_messages self ++ memory (w_task w) ++ msgs ++ user_messages step)
    = Ok resp.

(** X11.  A step on which the backend selects no tool, the first step or
    a later one, returns the last step with no continuation; it appends
    the message of the backend to the ephemeral buffer, after the user
    message of a step with input, and leaves the outputs collected so
    far as they are. *)
Theorem terminal_step_appends_answer :
  _get_tool_call_from_response (_llm self) resp = None →
  ∃ out w',
    run_step self uuid4 step w = (Ok out, w') ∧
    is_last out = true ∧
    next_steps out = [] ∧
    response (output out) = response_str resp ∧
    new_messages w' = Some (msgs ++ user_messages step ++ [message resp]) ∧
    tool_outputs w' = Some outs.
Proof.
  intros Htc. destruct (task_state_at_intro _ _ _ Hm Ho) as (am & ao & Hw).
  rewrite (run_step_at self uuid4 step w am ao msgs outs Hw).
  unfold step_outcome. rewrite Hchat, Htc. eexists _, _. split; [done |].
  pose proof (task_state_at_set_memory _ _ _ _ _ Hw
                ((msgs ++ user_messages step) ++ [message resp])) as Hw'.
  repeat split.
  - rewrite (assoc_L (++)). by eapply new_messages_at.
  - by eapply tool_outputs_at.
Qed.

(** X12.  When the backend selects a tool that the catalogue has not, the
    step raises the [ValueError] of [get_function_by_name]; the message
    of the backend, which asks for the tool, is by then in the
    ephemeral buffer, no tool message answers it, and no output is
    recorded. *)
Theorem missing_tool_step_keeps_request tc :
  _get_tool_call_from_response (_llm self) resp = Some tc →
  sel_tool_name tc ∉ (name ∘ metadata) <$> get_tools self (input (w_task w)) →
  ∃ w',
    run_step self uuid4 step w =
      (Raise (mkExn ValueError
                ("Tool with name " +:+ sel_tool_name tc +:+ " not found")), w') ∧
    new_messages w' = Some (msgs ++ user_messages step ++ [message resp]) ∧
    tool_outputs w' = Some outs.
Proof.
  intros Htc Hn. destruct (task_state_at_intro _ _ _ Hm Ho) as (am & ao & Hw).
  rewrite (run_step_at self uuid4 step w am ao msgs outs Hw).
  unfold step_outcome. rewrite Hchat, Htc.
  apply tools_by_name_None in Hn. unfold get_function_by_name at 1.
  rewrite Hn. simpl. eexists. split; [done |].
  pose proof (task_state_at_set_memory _ _ _ _ _ Hw
                ((msgs ++ user_messages step) ++ [message resp])) as Hw'.
  split; [| by eapply tool_outputs_at].
  rewrite (assoc_L (++)). by eapply new_messages_at.
Qed.

(** X13.  When the selected tool raises an error that derives from
    [Exception], the step returns all the same and is not the last: the
    error is recorded as a [ToolOutput] whose content is
    ["Encountered error: "] followed by the message of the error, and the
    tool message that the next context shows the backend has this
    content. *)
Theorem tool_error_becomes_message tc t e :
  _get_tool_call_from_response (_llm self) resp = Some tc →
  get_function_by_name (get_tools self (input (w_task w))) (sel_tool_name tc) = Ok t →
  tool_call t (binding_rule t (tool_kwargs tc)).1 (binding_rule t (tool_kwargs tc)).2
    = Raise e →
  is_Exception (exn_class e) = true →
  let o := {| content := "Encountered error: " +:+ exn_str e;
              tool_name := name (metadata t);
              raw_input := tool_kwargs tc;
              raw_output := VStr (exn_str e) |} in
  ∃ out w',
    run_step self uuid4 step w = (Ok out, w') ∧
    is_last out = false ∧
    next_steps out = [get_next_step step uuid4 None] ∧
    tool_outputs w' = Some (outs ++ [o]) ∧
    new_messages w' =
      Some (msgs ++ user_messages step ++ [message resp; tool_message tc o]) ∧
    msg_content (tool_message tc o) = Some ("Encountered error: " +:+ exn_str e).
Proof.
  intros Htc Ht Hraise He o.
  destruct (task_state_at_intro _ _ _ Hm Ho) as (am & ao & Hw).
  rewrite (run_step_at self uuid4 step w am ao msgs outs Hw).
  unfold step_outcome. rewrite Hchat, Htc, Ht. simpl.
  apply get_function_by_name_Ok in Ht.
  unfold call_tool_with_selection, getitem. rewrite Ht. simpl.
  rewrite call_tool_binding_rule, Hraise. simpl. rewrite He. simpl.
  eexists _, _. split; [done |]. repeat split.
  - eapply tool_outputs_at, task_state_at_set_memory, task_state_at_set_sources, Hw.
  - rewrite (assoc_L (++)).
    eapply new_messages_at, task_state_at_set_memory, task_state_at_set_sources, Hw.
Qed.

End BackendAnswers.

End AfterAStep.

(** X14.  On a task whose state has no ["new_memory"], a task that
    [initialize_step] has not prepared, [run_step], [arun_step] and
    [finalize_task] raise [KeyError] and change nothing; the backend
    is not asked. *)
Theorem unprepared_task_raises_KeyError self uuid4 step w :
  extra_state (w_task w) !! "new_memory" = None →
  let missing := mkExn KeyError "'new_memory'" in
  run_step self uuid4 step w = (Raise missing, w) ∧
  arun_step self uuid4 step w = (Raise missing, w) ∧
  finalize_task w = (Raise missing, w).
Proof.
  intros Hk missing.
  pose proof (extra_state_getitem_None _ _ Hk) as Hget.
  assert (get_all_messages self w = (Raise missing, w)) as Hall.
  { unfold get_all_messages. mpure. by apply bind_Raise. }
  repeat split.
  - unfold run_step. destruct (step_input step).
    + apply bind_Raise. by apply bind_Raise.
    + mpure. mpure. by apply bind_Raise.
  - unfold arun_step. destruct (step_input step).
    + apply bind_Raise. by apply bind_Raise.
    + mpure. mpure. by apply bind_Raise.
  - unfold finalize_task. mpure. by apply bind_Raise.
Qed.


Lemma raising_step_records_no_output_witness :
  tool_outputs (run_step Failures.stray "s2" Scenario.step1 Scenario.world1).2 = Some [] ∧
  w_task (run_step Failures.stray "s2" Scenario.step1 Scenario.world1).2 =
    w_task Scenario.world1 ∧
  new_messages (run_step Failures.stray "s2" Scenario.step1 Scenario.world1).2 =
    Some ([] ++ user_messages Scenario.step1 ++
          [message (Failures.wants Scenario.select_missing)]).
Proof.
  destruct (raising_step_records_no_output Failures.stray "s2" Scenario.step1
              Scenario.world1 [] [] eq_refl eq_refl
              (mkExn ValueError "Tool with name multiply not found")
              (run_step Failures.stray "s2" Scenario.step1 Scenario.world1).2)
    as [Hrun _].
  apply Hrun. vm_compute. reflexivity.
Defined.

Lemma backend_error_keeps_user_message_witness :
  ∃ w', run_step Failures.offline "s2" Scenario.step1 Scenario.world1 =
          (Raise (mkExn RuntimeError "connection refused"), w') ∧
        new_messages w' = Some ([] ++ user_messages Scenario.step1) ∧
        tool_outputs w' = Some [].
Proof.
  apply (backend_error_keeps_user_message Failures.offline "s2" Scenario.step1
           Scenario.world1 [] [] eq_refl eq_refl).
  reflexivity.
Defined.

Lemma terminal_step_appends_answer_witness :
  ∃ out w',
    run_step Scenario.adder "s3" Scenario.step2 Scenario.world2 = (Ok out, w') ∧
    is_last out = true ∧
    next_steps out = [] ∧
    response (output out) = response_str Scenario.says_seven ∧
    new_messages w' =
      Some ([Scenario.user_message; message Scenario.wants_add; Scenario.five_message]
            ++ user_messages Scenario.step2 ++ [message Scenario.says_seven]) ∧
    tool_outputs w' = Some [Scenario.five].
Proof.
  apply (terminal_step_appends_answer Scenario.adder "s3" Scenario.step2
           Scenario.world2
           [Scenario.user_message; message Scenario.wants_add; Scenario.five_message]
           [Scenario.five]);
    vm_compute; reflexivity.
Defined.

Lemma missing_tool_step_keeps_request_witness :
  ∃ w',
    run_step Failures.stray "s2" Scenario.step1 Scenario.world1 =
      (Raise (mkExn ValueError
                ("Tool with name " +:+ sel_tool_name Scenario.select_missing
                 +:+ " not found")), w') ∧
    new_messages w' =
      Some ([] ++ user_messages Scenario.step1 ++
            [message (Failures.wants Scenario.select_missing)]) ∧
    tool_outputs w' = Some [].
Proof.
  apply (missing_tool_step_keeps_request Failures.stray "s2" Scenario.step1
           Scenario.world1 [] [] eq_refl eq_refl
           (Failures.wants Scenario.select_missing) eq_refl
           Scenario.select_missing eq_refl).
  simpl. intros H. apply list_elem_of_singleton in H. discriminate H.
Defined.

Lemma tool_error_becomes_message_witness :
  ∃ out w',
    run_step Failures.breaker "s2" Scenario.step1 Scenario.world1 = (Ok out, w') ∧
    is_last out = false ∧
    next_steps out = [get_next_step Scenario.step1 "s2" None] ∧
    tool_outputs w' =
      Some ([] ++ [{| content := "Encountered error: boom"; tool_name := "fail";
                      raw_input := [("x", VInt 1); ("y", VInt 2)];
                      raw_output := VStr "boom" |}]) ∧
    new_messages w' =
      Some ([] ++ user_messages Scenario.step1 ++
            [message (Failures.wants Failures.select_fail);
             tool_message Failures.select_fail
               {| content := "Encountered error: boom"; tool_name := "fail";
                  raw_input := [("x", VInt 1); ("y", VInt 2)];
                  raw_output := VStr "boom" |}]) ∧
    msg_content
      (tool_message Failures.select_fail
         {| content := "Encountered error: boom"; tool_name := "fail";
            raw_input := [("x", VInt 1); ("y", VInt 2)];
            raw_output := VStr "boom" |}) = Some "Encountered error: boom".
Proof.
  apply (tool_error_becomes_message Failures.breaker "s2" Scenario.step1
           Scenario.world1 [] [] eq_refl eq_refl
           (Failures.wants Failures.select_fail) eq_refl
           Failures.select_fail (adapt_to_async_tool Scenario.failing_tool)
           (mkExn ValueError "boom"));
    reflexivity.
Defined.

Lemma unprepared_task_raises_KeyError_witness :
  run_step Scenario.adder "s2" Scenario.step1 Scenario.world0 =
    (Raise (mkExn KeyError "'new_memory'"), Scenario.world0) ∧
  arun_step Scenario.adder "s2" Scenario.step1 Scenario.world0 =
    (Raise (mkExn KeyError "'new_memory'"), Scenario.world0) ∧
  finalize_task Scenario.world0 =
    (Raise (mkExn KeyError "'new_memory'"), Scenario.world0).
Proof.
  apply (unprepared_task_raises_KeyError Scenario.adder "s2" Scenario.step1
           Scenario.world0).
  reflexivity.
Defined.

(** * Further properties: preparing and finalising a task *)

Lemma finalize_task_at w am msgs :
  extra_state (w_task w) !! "new_memory" = Some (SRef am) →
  w_heap w !! am = Some (OMemory msgs) →
  finalize_task w =
    (Ok (),
     {| w_task := {| task_id := task_id (w_task w); input := input (w_task w);
                     memory := memory (w_task w) ++ msgs;
                     extra_state := extra_state (w_task w) |};
        w_heap := <[am := OMemory []]> (w_heap w) |}).
Proof.
  intros Hk Hh. unfold finalize_task. mpure.
  mstep ltac:(idtac; by apply extra_state_getitem_Some).
  mstep ltac:(idtac; unfold get_all, as_memory, mbind, M_bind;
              rewrite Hh; reflexivity).
  mpure. mstep ltac:(idtac; by apply extra_state_getitem_Some).
  unfold reset, as_memory, store, mbind, M_bind. simpl. by rewrite Hh.
Qed.

(** X16.  [finalize_task] run a second time merges nothing: it returns,
    and the durable memory and the empty buffer are what the first run
    left. *)
Theorem finalize_task_twice w msgs :
  new_messages w = Some msgs →
  ∃ w1 w2,
    finalize_task w = (Ok (), w1) ∧
    finalize_task w1 = (Ok (), w2) ∧
    memory (w_task w1) = memory (w_task w) ++ msgs ∧
    memory (w_task w2) = memory (w_task w1) ∧
    new_messages w2 = Some [].
Proof.
  intros (am & Hk & Hh)%new_messages_inv.
  assert (am < length (w_heap w)) as Hlt by by eapply lookup_lt_Some.
  eexists _, _. split; [by apply finalize_task_at |].
  split; [| split; [done | split]].
  - apply (finalize_task_at _ am []); [done |]. simpl.
    by apply list_lookup_insert_eq.
  - simpl. by rewrite app_nil_r.
  - unfold new_messages. simpl. rewrite Hk. simpl.
    rewrite list_lookup_insert_eq; [done |]. by rewrite length_insert.
Qed.

(** X17.  [finalize_task] empties the buffer only: the list of tool
    outputs, the call counter and the rest of the task state are what
    they were. *)
Theorem finalize_task_keeps_outputs w msgs :
  new_messages w = Some msgs →
  tool_outputs (finalize_task w).2 = tool_outputs w ∧
  n_function_calls (finalize_task w).2 = n_function_calls w ∧
  extra_state (w_task (finalize_task w).2) = extra_state (w_task w).
Proof.
  intros (am & Hk & Hh)%new_messages_inv.
  rewrite (finalize_task_at w am msgs Hk Hh).
  split; [| done]. unfold tool_outputs. simpl.
  destruct (extra_state (w_task w) !! "sources") as [[n|ao]|]; simpl; try done.
  destruct (decide (ao = am)) as [-> | Hne].
  - rewrite Hh, list_lookup_insert_eq; [done |]. by eapply lookup_lt_Some.
  - by rewrite list_lookup_insert_ne.
Qed.

(** X18.  [initialize_step], on a new task or on one that has run before,
    leaves an empty buffer, an empty list of outputs and a counter of
    zero under the three keys of the task state; the other keys, the
    durable memory and the objects that existed stay: what an earlier
    response refers to is still there. *)
Theorem initialize_step_starts_afresh uuid4 w :
  let w' := (initialize_step uuid4 w).2 in
  new_messages w' = Some [] ∧
  tool_outputs w' = Some [] ∧
  n_function_calls w' = Some 0%Z ∧
  memory (w_task w') = memory (w_task w) ∧
  (∀ k, k ≠ "new_memory" → k ≠ "sources" → k ≠ "n_function_calls" →
        extra_state (w_task w') !! k = extra_state (w_task w) !! k) ∧
  (∀ v outs, deref_sources v w = Some outs → deref_sources v w' = Some outs).
Proof.
  intros w'. subst w'.
  destruct (initialize_step_at uuid4 w) as (_ & Hw' & Hn & _ & Hmem).
  split; [by eapply new_messages_at |]. split; [by eapply tool_outputs_at |].
  split; [exact Hn |]. split; [exact Hmem |]. split.
  - intros k H1 H2 H3. rewrite initialize_step_world. simpl.
    rewrite lookup_union_r; [done |]. by rewrite !lookup_insert_ne.
  - intros v outs. rewrite initialize_step_world.
    unfold deref_sources. simpl. destruct v as [n|a]; [done |].
    destruct (w_heap w !! a) as [o|] eqn:Ha; [| done].
    by rewrite (lookup_app_l_Some _ _ _ _ Ha).
Qed.

Lemma finalize_task_twice_witness :
  ∃ w1 w2,
    finalize_task Scenario.world2 = (Ok (), w1) ∧
    finalize_task w1 = (Ok (), w2) ∧
    memory (w_task w1) =
      memory (w_task Scenario.world2) ++
        [Scenario.user_message; message Scenario.wants_add; Scenario.five_message] ∧
    memory (w_task w2) = memory (w_task w1) ∧
    new_messages w2 = Some [].
Proof.
  apply (finalize_task_twice Scenario.world2
           [Scenario.user_message; message Scenario.wants_add; Scenario.five_message]).
  vm_compute. reflexivity.
Defined.

Lemma finalize_task_keeps_outputs_witness :
  tool_outputs (finalize_task Scenario.world2).2 = tool_outputs Scenario.world2 ∧
  n_function_calls (finalize_task Scenario.world2).2 = n_function_calls Scenario.world2 ∧
  extra_state (w_task (finalize_task Scenario.world2).2) =
    extra_state (w_task Scenario.world2).
Proof.
  apply (finalize_task_keeps_outputs Scenario.world2
           [Scenario.user_message; message Scenario.wants_add; Scenario.five_message]).
  vm_compute. reflexivity.
Defined.

(** * Further properties: steps run one after the other *)

Lemma selection_Ok_lookup tools tc o :
  call_tool_with_selection tc tools = Ok o →
  (get_function_by_name tools (sel_tool_name tc) ≫=
     λ _, call_tool_with_selection tc tools) = Ok o.
Proof.
  intros Hcall. unfold get_function_by_name.
  unfold call_tool_with_selection, getitem in Hcall.
  destruct (tools_by_name tools !! sel_tool_name tc) as [t|] eqn:Ht; [| done].
  unfold getitem. rewrite Ht. simpl. unfold call_tool_with_selection, getitem.
  by rewrite Ht.
Qed.

Lemma run_steps_shape self step w chain w' am ao msgs outs :
  run_steps self step w chain w' →
  task_state_at w am ao msgs outs →
  w_task w' = w_task w ∧
  ∃ added new,
    task_state_at w' am ao (msgs ++ added) (outs ++ new) ∧
    length new = length chain ∧
    Forall (λ out, is_last out = false ∧ sources (output out) = SRef ao) chain.
Proof.
  intros Hchain. revert msgs outs.
  induction Hchain as [step w | uuid4 step w out w1 next chain w2 Hrun Hnext _ IH];
    intros msgs outs Hw.
  - split; [done |]. exists [], []. rewrite !app_nil_r.
    split; [done | split; [done | constructor]].
  - rewrite (run_step_at self uuid4 step w am ao msgs outs Hw) in Hrun.
    apply (step_outcome_shape _ _ _ _ _ _ _ _ _ _ _ _ _ Hw) in Hrun
      as (Htask & added & new & Hw1 & Hsrc & _ & Hlen & Hnext').
    assert (is_last out = false) as Hlast.
    { destruct (is_last out); [| done]. by rewrite Hnext in Hnext'. }
    rewrite Hlast in Hlen.
    destruct (IH _ _ Hw1) as (Htask2 & added2 & new2 & Hw2 & Hlen2 & Hall).
    split; [congruence |].
    exists (user_messages step ++ added ++ added2), (new ++ new2).
    split; [| split].
    + rewrite !(assoc_L (++)). exact Hw2.
    + rewrite length_app. simpl. lia.
    + by constructor.
Qed.

Section Chains.

Variable self : FunctionCallingAgentWorker.
Variables (step : TaskStep) (w : World).
Variables (msgs : list ChatMessage) (outs : list ToolOutput).
Hypothesis Hm : new_messages w = Some msgs.
Hypothesis Ho : tool_outputs w = Some outs.

(** X19.  Along steps run one after the other, each followed by its
    continuation, no step is the last and each records one tool output:
    the list of outputs grows by as many outputs as steps were run.  The
    buffer keeps what it held, the durable memory and the call counter
    stay what they were. *)
Theorem chain_records_one_output_per_step chain w' :
  run_steps self step w chain w' →
  Forall (λ out, is_last out = false) chain ∧
  (∃ new, tool_outputs w' = Some (outs ++ new) ∧ length new = length chain) ∧
  (∃ added, new_messages w' = Some (msgs ++ added)) ∧
  memory (w_task w') = memory (w_task w) ∧
  n_function_calls w' = n_function_calls w.
Proof.
  intros Hchain. destruct (task_state_at_intro _ _ _ Hm Ho) as (am & ao & Hw).
  destruct (run_steps_shape _ _ _ _ _ _ _ _ _ Hchain Hw)
    as (Htask & added & new & Hw' & Hlen & Hall).
  split; [| split; [| split; [| split]]].
  - eapply Forall_impl; [exact Hall |]. by intros out [H _].
  - exists new. split; [by eapply tool_outputs_at | done].
  - exists added. by eapply new_messages_at.
  - by rewrite Htask.
  - unfold n_function_calls. by rewrite Htask.
Qed.

(** X20.  The responses of steps run one after the other refer to one
    list: read after the last of the steps, the sources of every
    response, the first one too, are all the outputs of the task,
    those included that later steps recorded. *)
Theorem chain_responses_share_sources chain w' :
  run_steps self step w chain w' →
  Forall (λ out, deref_sources (sources (output out)) w' = tool_outputs w') chain.
Proof.
  intros Hchain. destruct (task_state_at_intro _ _ _ Hm Ho) as (am & ao & Hw).
  destruct (run_steps_shape _ _ _ _ _ _ _ _ _ Hchain Hw)
    as (Htask & added & new & Hw' & Hlen & Hall).
  eapply Forall_impl; [exact Hall |]. intros out [_ ->].
  rewrite (tool_outputs_at _ _ _ _ _ Hw').
  destruct Hw' as (_ & _ & _ & Hao). unfold deref_sources. by rewrite Hao.
Qed.

End Chains.

(** X21.  Nothing in a step stops a backend that selects a tool every
    time: after any number of steps, a number above
    [_max_function_calls] too, the next step calls the tool again, and
    the task has as many outputs more as steps were run. *)
Theorem steps_are_not_bounded self n step w msgs outs :
  always_selects self →
  new_messages w = Some msgs →
  tool_outputs w = Some outs →
  ∃ chain w' new,
    run_steps self step w chain w' ∧
    length chain = n ∧
    tool_outputs w' = Some (outs ++ new) ∧
    length new = n.
Proof.
  intros Hsel Hm Ho. destruct (task_state_at_intro _ _ _ Hm Ho) as (am & ao & Hw).
  clear Hm Ho. revert step w msgs outs Hw.
  induction n as [|n IH]; intros step w msgs outs Hw.
  - exists [], w, []. rewrite app_nil_r.
    split; [constructor |]. split; [done |]. split; [| done].
    by eapply tool_outputs_at.
  - destruct (Hsel (input (w_task w))
                (prefix_messages self ++ memory (w_task w) ++
                   msgs ++ user_messages step))
      as (resp & tc & o & Hchat & Htc & Hcall).
    pose proof (run_step_at self "" step w am ao msgs outs Hw) as Hrun.
    unfold step_outcome in Hrun.
    rewrite Hchat, Htc, (selection_Ok_lookup _ _ _ Hcall) in Hrun.
    assert (task_state_at
              (set_memory (set_sources w ao (outs ++ [o])) am
                 ((msgs ++ user_messages step) ++ [message resp; tool_message tc o]))
              am ao
              ((msgs ++ user_messages step) ++ [message resp; tool_message tc o])
              (outs ++ [o])) as Hw1.
    { eapply task_state_at_set_memory, task_state_at_set_sources, Hw. }
    destruct (IH (get_next_step step "" None) _ _ _ Hw1)
      as (chain & w' & new & Hchain & Hlen & Hout & Hnew).
    eexists (_ :: chain), w', (o :: new). repeat split.
    + eapply run_steps_next; [exact Hrun | reflexivity | exact Hchain].
    + simpl. by rewrite Hlen.
    + by rewrite <- (assoc_L (++)) in Hout.
    + simpl. by rewrite Hnew.
Qed.

Lemma chain_records_one_output_per_step_witness :
  Forall (λ out, is_last out = false) [Scenario.out1] ∧
  (∃ new, tool_outputs Scenario.world2 = Some ([] ++ new) ∧
          length new = length [Scenario.out1]) ∧
  (∃ added, new_messages Scenario.world2 = Some ([] ++ added)) ∧
  memory (w_task Scenario.world2) = memory (w_task Scenario.world1) ∧
  n_function_calls Scenario.world2 = n_function_calls Scenario.world1.
Proof.
  apply (chain_records_one_output_per_step Scenario.adder Scenario.step1
           Scenario.world1 [] [] eq_refl eq_refl [Scenario.out1] Scenario.world2).
  eapply run_steps_next; [| reflexivity | apply run_steps_done].
  vm_compute. reflexivity.
Defined.

Lemma chain_responses_share_sources_witness :
  Forall (λ out, deref_sources (sources (output out)) Failures.called_twice.2 =
                 tool_outputs Failures.called_twice.2)
    [Failures.call1; Failures.call2] ∧
  deref_sources (sources (output Failures.call1)) Failures.called_once.2 =
    Some [Scenario.five] ∧
  tool_outputs Failures.called_twice.2 = Some [Scenario.five; Scenario.five].
Proof.
  split; [| split; vm_compute; reflexivity].
  apply (chain_responses_share_sources Scenario.caller Scenario.step1
           Scenario.world1 [] [] eq_refl eq_refl
           [Failures.call1; Failures.call2] Failures.called_twice.2).
  eapply (run_steps_next Scenario.caller "s2" Scenario.step1 Scenario.world1
            Failures.call1 Failures.called_once.2 Scenario.step2).
  - vm_compute. reflexivity.
  - reflexivity.
  - eapply (run_steps_next Scenario.caller "s3" Scenario.step2
              Failures.called_once.2 Failures.call2 Failures.called_twice.2).
    + vm_compute. reflexivity.
    + reflexivity.
    + apply run_steps_done.
Defined.

Lemma steps_are_not_bounded_witness :
  ∃ chain w' new,
    run_steps Scenario.caller Scenario.step1 Scenario.world1 chain w' ∧
    length chain = 7 ∧
    tool_outputs w' = Some ([] ++ new) ∧
    length new = 7.
Proof.
  apply (steps_are_not_bounded Scenario.caller 7 Scenario.step1 Scenario.world1 [] []).
  - intros input history.
    exists Scenario.wants_add, Scenario.select_add, Scenario.five.
    repeat split.
  - reflexivity.
  - reflexivity.
Defined.
